(** * mcp-server-mamp-mysql: the adapter of [src/index.ts], embedded and verified

    The adapter is a thin layer over two libraries: the MCP server SDK and the
    [mysql2] driver.  The embedding keeps the code of [index.ts] as it is
    written (the same statements, in the same order, with JavaScript's
    [try]/[catch]/[finally]) and treats what lies outside the repository as an
    environment:

    - the database driver is a [Driver]: a record of functions that, given the
      history of calls made so far, answer the next call with a value or with
      an error.  Every deterministic behaviour of the pool and of the server
      behind it is one such record, and the theorems quantify over all of them;
    - the platform's [URL] parser is a section variable;
    - the effects of a run are recorded in a chronological [Trace] of events.

    Strings are [string]s holding the UTF-8 bytes of the JavaScript string. *)

From Stdlib Require Import ZArith Ascii String List Lia DecimalString.
From stdpp Require Import base option list strings gmap.

Local Open Scope Z_scope.

(* ===================================================================== *)
(** ** JavaScript strings *)
(* ===================================================================== *)

Module JsString.

(** The white space of [String.prototype.trim] (WhiteSpace and
    LineTerminator of ECMA-262) that is one byte long in UTF-8:
    TAB, LF, VT, FF, CR and SPACE. *)
Definition ws1 (c : ascii) : bool :=
  match c with
  | "009" | "010" | "011" | "012" | "013" | " " => true
  | _ => false
  end%char.

(** Two bytes: U+00A0 (C2 A0). *)
Definition ws2 (c1 c2 : ascii) : bool :=
  match c1, c2 with
  | "194", "160" => true
  | _, _ => false
  end%char.

(** Three bytes: U+1680 (E1 9A 80), U+2000..U+200A (E2 80 80..8A),
    U+2028, U+2029 (E2 80 A8, A9), U+202F (E2 80 AF), U+205F (E2 81 9F),
    U+3000 (E3 80 80) and U+FEFF (EF BB BF). *)
Definition ws3 (c1 c2 c3 : ascii) : bool :=
  match c1, c2, c3 with
  | "225", "154", "128" => true
  | "226", "128", c =>
      let n := N_of_ascii c in
      ((128 <=? n) && (n <=? 138))%N || (n =? 168)%N || (n =? 169)%N
      || (n =? 175)%N
  | "226", "129", "159" => true
  | "227", "128", "128" => true
  | "239", "187", "191" => true
  | _, _, _ => false
  end%char.

(** Strips white space from the front.  With [fwd = false] the string is
    read back to front, so the bytes of a character arrive reversed. *)
Fixpoint strip (fwd : bool) (s : string) : string :=
  match s with
  | String c1 s1 =>
      if ws1 c1 then strip fwd s1 else
      match s1 with
      | String c2 s2 =>
          if (if fwd then ws2 c1 c2 else ws2 c2 c1) then strip fwd s2 else
          match s2 with
          | String c3 s3 =>
              if (if fwd then ws3 c1 c2 c3 else ws3 c3 c2 c1)
              then strip fwd s3 else s
          | EmptyString => s
          end
      | EmptyString => s
      end
  | EmptyString => s
  end.

Definition trimStart (s : string) : string := strip true s.
Definition trimEnd (s : string) : string :=
  String.rev (strip false (String.rev s)).

(** [String.prototype.trim]. *)
Definition trim (s : string) : string := trimEnd (trimStart s).

Definition lower_ascii (c : ascii) : ascii :=
  let n := N_of_ascii c in
  if ((65 <=? n) && (n <=? 90))%N then ascii_of_N (n + 32) else c.

(** [String.prototype.toLowerCase] on the ASCII letters.  The Unicode
    mapping also changes characters outside ASCII; none of them becomes
    one of the letters of the word select, which is all the adapter
    looks for in the lowered text. *)
Fixpoint toLowerCase (s : string) : string :=
  match s with
  | String c s' => String (lower_ascii c) (toLowerCase s')
  | EmptyString => EmptyString
  end.

(** [s.startsWith(search)]. *)
Definition startsWith (s search : string) : bool := String.prefix search s.

(** [s.split(sep)] for a one-character separator: never the empty array. *)
Fixpoint split_go (sep : ascii) (cur : string) (s : string) : list string :=
  match s with
  | String c s' =>
      if Ascii.eqb c sep
      then String.rev cur :: split_go sep EmptyString s'
      else split_go sep (String c cur) s'
  | EmptyString => [String.rev cur]
  end.
Definition split (s : string) (sep : ascii) : list string :=
  split_go sep EmptyString s.

End JsString.

(* ===================================================================== *)
(** ** Values, errors and query results *)
(* ===================================================================== *)

Set Warnings "-register-all".

(** JavaScript values, as far as the requests of the adapter carry them. *)
Inductive JsValue :=
| VUndefined
| VNull
| VBool (b : bool)
| VNumber (n : Z)
| VString (s : string)
| VArray (items : list JsValue)
| VObject (fields : list (string * JsValue)).

(** The [typeof] operator. *)
Definition typeof (v : JsValue) : string :=
  match v with
  | VUndefined => "undefined"
  | VNull => "object"
  | VBool _ => "boolean"
  | VNumber _ => "number"
  | VString _ => "string"
  | VArray _ => "object"
  | VObject _ => "object"
  end.

(** A variable read from [process.env] is a string or [undefined]. *)
Definition js_of_option (v : option string) : JsValue :=
  match v with
  | Some s => VString s
  | None => VUndefined
  end.

(** Truthiness of such a variable: [undefined] and the empty string are
    falsy, every other string is truthy. *)
Definition truthy (v : option string) : bool :=
  match v with
  | Some (String _ _) => true
  | Some EmptyString => false
  | None => false
  end.

(** [ErrorCode] of the MCP SDK: the members [index.ts] uses. *)
Inductive ErrorCode := InvalidRequest | MethodNotFound | InvalidParams.

(** An error object: [name], [message] and, for an [McpError], its [code]. *)
Record JsError := mkError {
  err_name : string;
  err_message : string;
  err_code : option ErrorCode
}.

(** [new Error(message)] *)
Definition Error (message : string) : JsError :=
  {| err_name := "Error"; err_message := message; err_code := None |}.

(** [new McpError(code, message)] *)
Definition McpError (code : ErrorCode) (message : string) : JsError :=
  {| err_name := "McpError"; err_message := message; err_code := Some code |}.

(** [Error.prototype.toString], which a template literal applies to an
    interpolated error. *)
Definition error_toString (e : JsError) : string :=
  match err_name e, err_message e with
  | EmptyString, msg => msg
  | name, EmptyString => name
  | name, msg => name +:+ ": " +:+ msg
  end.

(** A column value of a result row. *)
Inductive SqlValue :=
| SqlNull
| SqlInt (n : Z)
| SqlText (s : string).

(** A row maps column names to values, in column order; a result set is a
    sequence of rows. *)
Definition Row : Type := list (string * SqlValue).
Definition Rows : Type := list Row.

(* ===================================================================== *)
(** ** [JSON.stringify(rows, null, 2)] and [parseInt(s, 10)] *)
(* ===================================================================== *)

Module JSON.

Definition hex_digit (n : N) : ascii :=
  if (n <? 10)%N then ascii_of_N (48 + n) else ascii_of_N (87 + n).

(** One character of a quoted JSON string. *)
Definition quote_char (c : ascii) : string :=
  let bs := String "092" EmptyString in
  match c with
  | "008" => bs +:+ "b"
  | "009" => bs +:+ "t"
  | "010" => bs +:+ "n"
  | "012" => bs +:+ "f"
  | "013" => bs +:+ "r"
  | "034" => bs +:+ String "034" EmptyString
  | "092" => bs +:+ bs
  | _ =>
      let n := N_of_ascii c in
      if (n <? 32)%N
      then bs +:+ "u00" +:+ String (hex_digit (n / 16)) (String (hex_digit (n mod 16)) EmptyString)
      else String c EmptyString
  end%char.

Fixpoint quote_body (s : string) : string :=
  match s with
  | String c s' => quote_char c +:+ quote_body s'
  | EmptyString => EmptyString
  end.

Definition quote (s : string) : string :=
  String "034" (quote_body s +:+ String "034" EmptyString).

Definition number (n : Z) : string := NilZero.string_of_int (Z.to_int n).

Definition value (v : SqlValue) : string :=
  match v with
  | SqlNull => "null"
  | SqlInt n => number n
  | SqlText s => quote s
  end.

Definition nl : string := String "010" EmptyString.

(** The members of a structure, one per line at [indent]. *)
Fixpoint lines (indent : string) (items : list string) : string :=
  match items with
  | [] => EmptyString
  | [x] => indent +:+ x
  | x :: rest => indent +:+ x +:+ "," +:+ nl +:+ lines indent rest
  end.

Definition member (kv : string * SqlValue) : string :=
  quote (fst kv) +:+ ": " +:+ value (snd kv).

(** A row, printed as an element of the top-level array. *)
Definition object (r : Row) : string :=
  match r with
  | [] => "{}"
  | _ => "{" +:+ nl +:+ lines "    " (member <$> r) +:+ nl +:+ "  }"
  end.

Definition stringify (rows : Rows) : string :=
  match rows with
  | [] => "[]"
  | _ => "[" +:+ nl +:+ lines "  " (object <$> rows) +:+ nl +:+ "]"
  end.

End JSON.

(** [parseInt(s, 10)]: leading white space, an optional sign, then the
    longest run of decimal digits; [None] stands for [NaN].  (JavaScript
    rounds the value to a double beyond 2^53; nothing below depends on the
    value.) *)
Module ParseInt.

Definition digit (c : ascii) : option Z :=
  let n := N_of_ascii c in
  if ((48 <=? n) && (n <=? 57))%N then Some (Z.of_N n - 48) else None.

Fixpoint digits (acc : option Z) (s : string) : option Z :=
  match s with
  | String c s' =>
      match digit c with
      | Some d => digits (Some (10 * default 0 acc + d)) s'
      | None => acc
      end
  | EmptyString => acc
  end.

Definition parseInt (s : string) : option Z :=
  match JsString.trimStart s with
  | String "-" s' => Z.opp <$> digits None s'
  | String "+" s' => digits None s'
  | s' => digits None s'
  end.

End ParseInt.

(* ===================================================================== *)
(** ** The environment: pool options, events and the driver *)
(* ===================================================================== *)

(** [mysql.PoolOptions], the fields the constructor fills.  The three
    addressing fields are [None] while the property is not assigned;
    a number is [None] when it is [NaN]. *)
Record PoolOptions := {
  cfg_user : option string;
  cfg_password : option string;
  cfg_database : option string;
  cfg_connectionLimit : option Z;
  cfg_socketPath : option string;
  cfg_host : option (option string);
  cfg_port : option (option Z)
}.

(** Assignments [config.socketPath = v], [config.host = v], [config.port = v]. *)
Definition set_socketPath (v : option string) (c : PoolOptions) : PoolOptions :=
  {| cfg_user := cfg_user c; cfg_password := cfg_password c;
     cfg_database := cfg_database c; cfg_connectionLimit := cfg_connectionLimit c;
     cfg_socketPath := v; cfg_host := cfg_host c; cfg_port := cfg_port c |}.
Definition set_host (v : option string) (c : PoolOptions) : PoolOptions :=
  {| cfg_user := cfg_user c; cfg_password := cfg_password c;
     cfg_database := cfg_database c; cfg_connectionLimit := cfg_connectionLimit c;
     cfg_socketPath := cfg_socketPath c; cfg_host := Some v; cfg_port := cfg_port c |}.
Definition set_port (v : option Z) (c : PoolOptions) : PoolOptions :=
  {| cfg_user := cfg_user c; cfg_password := cfg_password c;
     cfg_database := cfg_database c; cfg_connectionLimit := cfg_connectionLimit c;
     cfg_socketPath := cfg_socketPath c; cfg_host := cfg_host c; cfg_port := Some v |}.

Definition ConnId : Type := nat.

(** How a promise of the driver settles. *)
Inductive Outcome (A : Type) :=
| Resolved (a : A)
| Rejected (e : JsError).
Arguments Resolved {A} a.
Arguments Rejected {A} e.

Inductive Stream := Stdout | Stderr.

(** What a run does to the outside world, in the order it happens. *)
Inductive Event :=
| EvCreatePool (config : PoolOptions)
| EvGetConnection (r : Outcome ConnId)
| EvExecute (c : ConnId) (sql : string) (params : option (list JsValue)) (r : Outcome Rows)
| EvBeginTransaction (c : ConnId) (r : Outcome unit)
| EvRollback (c : ConnId) (r : Outcome unit)
| EvRelease (c : ConnId)
| EvPoolEnd (r : Outcome unit)
| EvTransportConnect (r : Outcome unit)
| EvConsole (s : Stream) (text : string) (detail : option JsError)
| EvExit (code : Z).

Definition Trace : Type := list Event.

(** The pool of [mysql2] and the server behind it (and the stdio transport):
    each call is answered from the history so far. *)
Record Driver := {
  drv_getConnection : Trace -> Outcome ConnId;
  drv_execute : Trace -> ConnId -> string -> option (list JsValue) -> Outcome Rows;
  drv_beginTransaction : Trace -> ConnId -> Outcome unit;
  drv_rollback : Trace -> ConnId -> Outcome unit;
  drv_end : Trace -> Outcome unit;
  drv_connect : Trace -> Outcome unit
}.

(** The parts of a parsed [URL] object. *)
Record URL := {
  url_protocol : string;
  url_host : string;
  url_pathname : string;
  url_search : string;
  url_hash : string
}.

(* ===================================================================== *)
(** ** Computations: a trace and an exception *)
(* ===================================================================== *)

Inductive Result (A : Type) :=
| Return (a : A)
| Throw (e : JsError).
Arguments Return {A} a.
Arguments Throw {A} e.

Definition M (A : Type) : Type := Trace -> Result A * Trace.

#[global] Instance M_ret : MRet M := fun A a tr => (Return a, tr).

#[global] Instance M_bind : MBind M := fun A B k m tr =>
  match m tr with
  | (Return a, tr') => k a tr'
  | (Throw e, tr') => (Throw e, tr')
  end.

Definition throw {A} (e : JsError) : M A := fun tr => (Throw e, tr).

(** [try { body } catch (error) { handler }] *)
Definition try_catch {A} (body : M A) (handler : JsError -> M A) : M A :=
  fun tr =>
    match body tr with
    | (Return a, tr') => (Return a, tr')
    | (Throw e, tr') => handler e tr'
    end.

(** [try { body } finally { finalizer }]: the finalizer runs on both exits
    and its own exception, if any, replaces the outcome of the body. *)
Definition try_finally {A} (body : M A) (finalizer : M unit) : M A :=
  fun tr =>
    match body tr with
    | (r, tr') =>
        match finalizer tr' with
        | (Return _, tr'') => (r, tr'')
        | (Throw e, tr'') => (Throw e, tr'')
        end
    end.

(** [await] of a driver promise, recorded as [ev]. *)
Definition await {A} (r : Outcome A) (ev : Event) : M A :=
  fun tr =>
    (match r with Resolved a => Return a | Rejected e => Throw e end, tr ++ [ev]).

Definition emit (ev : Event) : M unit := fun tr => (Return tt, tr ++ [ev]).

(** [array.pop()]: the last element ([undefined] on the empty array) and
    the array that is left. *)
Fixpoint pop {A} (l : list A) : option A * list A :=
  match l with
  | [] => (None, [])
  | [x] => (Some x, [])
  | x :: l' => let (r, rest) := pop l' in (r, x :: rest)
  end.

(* ===================================================================== *)
(** ** Requests and responses *)
(* ===================================================================== *)

Record ReadResourceRequest := { rr_uri : string }.

Record ResourceContents := {
  rc_uri : string;
  rc_mimeType : string;
  rc_text : string
}.

Record ReadResourceResult := { contents : list ResourceContents }.

(** [request.params] of a tool call; [arguments] is an object or absent. *)
Record CallToolRequest := {
  ct_name : string;
  ct_arguments : option (gmap string JsValue)
}.

Record TextContent := { tc_type : string; tc_text : string }.

(** [isError] is [None] where the returned object has no such property. *)
Record CallToolResult := {
  content : list TextContent;
  isError : option bool
}.

(** The text of a value whose [typeof] is string. *)
Definition string_of (v : JsValue) : string :=
  match v with
  | VString s => s
  | _ => EmptyString
  end.

(** Property access [obj.key]: [undefined] for a missing property. *)
Definition get_prop (obj : gmap string JsValue) (key : string) : JsValue :=
  default VUndefined (obj !! key).

(** A listed resource, a resource template and a tool descriptor. *)
Record Resource := {
  res_uri : string;
  res_mimeType : string;
  res_name : string
}.

Record ListResourcesResult := { resources : list Resource }.

Record ResourceTemplate := {
  rt_uriTemplate : string;
  rt_name : string;
  rt_mimeType : string;
  rt_description : string
}.

Record ListResourceTemplatesResult := { resourceTemplates : list ResourceTemplate }.

Record Tool := {
  tool_name : string;
  tool_description : string;
  tool_inputSchema : JsValue
}.

Record ListToolsResult := { tools : list Tool }.

(** Property access [row.key] on a result row: the value of the column,
    [undefined] when the row has no such column.  (A later column of the
    same name replaces an earlier one, as in the object the driver builds.) *)
Fixpoint row_get (key : string) (row : Row) : option SqlValue :=
  match row with
  | [] => None
  | (k, v) :: row' =>
      match row_get key row' with
      | Some v' => Some v'
      | None => if bool_decide (k = key) then Some v else None
      end
  end.

(** What a template literal makes of a column value and of an environment
    variable. *)
Definition template_of_value (v : option SqlValue) : string :=
  match v with
  | Some (SqlText s) => s
  | Some (SqlInt n) => JSON.number n
  | Some SqlNull => "null"
  | None => "undefined"
  end.

Definition template_of_env (v : option string) : string := default "undefined" v.

(* ===================================================================== *)
(** ** [index.ts] *)
(* ===================================================================== *)

Section Adapter.

(** [process.env], the driver, and the platform's [new URL(..)], which
    throws on what it cannot parse. *)
Variable env : gmap string string.
Variable drv : Driver.
Variable URL_parse : string -> Outcome URL.

(** *** Environment variables (lines 25-33) *)
Definition MYSQL_HOST : option string := env !! "MYSQL_HOST".
Definition MYSQL_PORT : option string := env !! "MYSQL_PORT".
Definition MYSQL_USER : option string := env !! "MYSQL_USER".
Definition MYSQL_PASS : option string := env !! "MYSQL_PASS".
Definition MYSQL_DB : option string := env !! "MYSQL_DB".
Definition MYSQL_SOCKET : option string := env !! "MYSQL_SOCKET".
Definition MYSQL_POOL_LIMIT : string := default "10" (env !! "MYSQL_POOL_LIMIT").

(** *** Validation at module level (lines 35-47) *)
Definition validate : M unit :=
  (if negb (truthy MYSQL_USER)
   then throw (Error "MYSQL_USER environment variable is required")
   else mret tt);;
  (if negb (truthy MYSQL_PASS)
   then throw (Error "MYSQL_PASS environment variable is required")
   else mret tt);;
  (if negb (truthy MYSQL_DB)
   then throw (Error "MYSQL_DB environment variable is required")
   else mret tt);;
  (if negb (truthy MYSQL_SOCKET) && (negb (truthy MYSQL_HOST) || negb (truthy MYSQL_PORT))
   then throw (Error "Either MYSQL_SOCKET or both MYSQL_HOST and MYSQL_PORT environment variables are required")
   else mret tt).

(** *** The driver calls of a handler *)
Definition getConnection : M ConnId :=
  fun tr => let r := drv_getConnection drv tr in await r (EvGetConnection r) tr.

Definition execute (c : ConnId) (sql : string) (params : option (list JsValue)) : M Rows :=
  fun tr => let r := drv_execute drv tr c sql params in await r (EvExecute c sql params r) tr.

Definition beginTransaction (c : ConnId) : M unit :=
  fun tr => let r := drv_beginTransaction drv tr c in await r (EvBeginTransaction c r) tr.

Definition rollback (c : ConnId) : M unit :=
  fun tr => let r := drv_rollback drv tr c in await r (EvRollback c r) tr.

Definition release (c : ConnId) : M unit := emit (EvRelease c).

Definition pool_end : M unit :=
  fun tr => let r := drv_end drv tr in await r (EvPoolEnd r) tr.

Definition console (s : Stream) (text : string) (detail : option JsError) : M unit :=
  emit (EvConsole s text detail).

Definition new_URL (uri : string) : M URL :=
  fun tr => (match URL_parse uri with Resolved u => Return u | Rejected e => Throw e end, tr).

(** *** The constructor (lines 53-96): the pool options and the pool *)
Definition config : PoolOptions :=
  let config :=
    {| cfg_user := MYSQL_USER;
       cfg_password := MYSQL_PASS;
       cfg_database := MYSQL_DB;
       cfg_connectionLimit := ParseInt.parseInt MYSQL_POOL_LIMIT;
       cfg_socketPath := None;
       cfg_host := None;
       cfg_port := None |} in
  (* Use socket if provided, otherwise use host/port *)
  if truthy MYSQL_SOCKET then
    set_socketPath MYSQL_SOCKET config
  else
    let config := set_host MYSQL_HOST config in
    set_port (ParseInt.parseInt (default "undefined" MYSQL_PORT)) config.

Definition constructor : M unit := emit (EvCreatePool config).

(** *** [shutdown] (lines 98-101) and the two signal handlers (88-95) *)
Definition shutdown (signal : string) : M unit :=
  console Stdout ("Received " +:+ signal +:+ ". Shutting down...") None;;
  pool_end.

Definition on_signal (signal : string) : M unit :=
  shutdown signal;;
  emit (EvExit 0).

(** *** [executeQuery] (lines 103-111) *)
Definition executeQuery (sql : string) (params : list JsValue) : M Rows :=
  connection ← getConnection;
  try_finally
    (rows ← execute connection sql (Some params);
     mret rows)
    (release connection).

(** *** [executeReadOnlyQuery] (lines 113-138) *)
Definition executeReadOnlyQuery (sql : string) : M Rows :=
  connection ← getConnection;
  try_finally
    (try_catch
       (execute connection "SET SESSION TRANSACTION READ ONLY" None;;
        beginTransaction connection;;
        rows ← execute connection sql None;
        rollback connection;;
        execute connection "SET SESSION TRANSACTION READ WRITE" None;;
        mret rows)
       (fun error =>
          rollback connection;;
          throw error))
    (release connection).

(** *** The read-resource handler (lines 180-209) *)
Definition readResource (request : ReadResourceRequest) : M ReadResourceResult :=
  try_catch
    (resourceUrl ← new_URL (rr_uri request);
     let pathComponents := JsString.split (url_pathname resourceUrl) "/" in
     let '(schema, pathComponents) := pop pathComponents in
     let '(tableName, pathComponents) := pop pathComponents in
     (if negb (bool_decide (schema = Some "schema"))
      then throw (Error "Invalid resource URI")
      else mret tt);;
     results ← executeQuery
       "SELECT COLUMN_NAME, DATA_TYPE FROM information_schema.columns WHERE table_schema = ? AND table_name = ?"
       [js_of_option MYSQL_DB; js_of_option tableName];
     mret {| contents :=
               [ {| rc_uri := rr_uri request;
                    rc_mimeType := "application/json";
                    rc_text := JSON.stringify results |} ] |})
    (fun error =>
       console Stderr "Error in ReadResourceRequestSchema:" (Some error);;
       throw error).

(** *** The call-tool handler (lines 232-274) *)
Definition callTool (request : CallToolRequest) : M CallToolResult :=
  (if negb (bool_decide (ct_name request = "mysql_query"))
   then throw (McpError MethodNotFound ("Unknown tool: " +:+ ct_name request))
   else mret tt);;
  match ct_arguments request with
  | None => throw (McpError InvalidParams "Invalid SQL query")
  | Some args =>
      (if negb (bool_decide (typeof (get_prop args "sql") = "string"))
       then throw (McpError InvalidParams "Invalid SQL query")
       else mret tt);;
      let sql := string_of (get_prop args "sql") in
      (* Basic check to prevent write operations *)
      (if negb (JsString.startsWith (JsString.toLowerCase (JsString.trim sql)) "select")
       then throw (McpError InvalidRequest "Only SELECT queries are allowed")
       else mret tt);;
      try_catch
        (results ← executeReadOnlyQuery sql;
         mret {| content := [ {| tc_type := "text";
                                 tc_text := JSON.stringify results |} ];
                 isError := None |})
        (fun error =>
           mret {| content := [ {| tc_type := "text";
                                   tc_text := "MySQL query error: " +:+ error_toString error |} ];
                   isError := Some true |})
  end.

(** *** The list-resources handler (lines 142-162).  The rows that
    [console.log] prints after its label are not part of the event. *)
Definition listResources : M ListResourcesResult :=
  try_catch
    (results ← executeQuery
       "SELECT TABLE_NAME FROM information_schema.tables WHERE table_schema = ?"
       [js_of_option MYSQL_DB];
     console Stdout "Query results:" None;;
     mret {| resources :=
               (fun row =>
                  {| res_uri := "mysql://" +:+ template_of_env MYSQL_DB +:+ "/"
                                +:+ template_of_value (row_get "TABLE_NAME" row)
                                +:+ "/schema";
                     res_mimeType := "application/json";
                     res_name := String "034" (template_of_value (row_get "TABLE_NAME" row))
                                 +:+ String "034" " database schema" |})
               <$> results |})
    (fun error =>
       console Stderr "Error in ListResourcesRequestSchema:" (Some error);;
       throw error).

(** *** The resource-templates handler (lines 165-177) *)
Definition listResourceTemplates : M ListResourceTemplatesResult :=
  mret {| resourceTemplates :=
            [ {| rt_uriTemplate := "mysql://" +:+ template_of_env MYSQL_DB +:+ "/{table}/schema";
                 rt_name := "Table Schema";
                 rt_mimeType := "application/json";
                 rt_description := "Get schema information for a specific table" |} ] |}.

(** *** The list-tools handler (lines 213-230) *)
Definition listTools : M ListToolsResult :=
  mret {| tools :=
            [ {| tool_name := "mysql_query";
                 tool_description := "Run a read-only MySQL query";
                 tool_inputSchema :=
                   VObject
                     [ ("type", VString "object");
                       ("properties",
                        VObject
                          [ ("sql",
                             VObject
                               [ ("type", VString "string");
                                 ("description", VString "SQL query to execute (SELECT only)") ]) ]);
                       ("required", VArray [VString "sql"]) ] |} ] |}.

(** *** [run] (lines 277-281) and the module body (284-285) *)
Definition run : M unit :=
  (fun tr => let r := drv_connect drv tr in await r (EvTransportConnect r) tr);;
  console Stderr "MAMP MySQL MCP server running on stdio" None.

Definition main : M unit :=
  validate;;
  constructor;;
  try_catch run (fun error => console Stderr EmptyString (Some error)).

End Adapter.

(* ===================================================================== *)
(** ** Reading a trace *)
(* ===================================================================== *)

Definition is_rollback (ev : Event) : bool :=
  match ev with EvRollback _ _ => true | _ => false end.

Definition is_release (ev : Event) : bool :=
  match ev with EvRelease _ => true | _ => false end.

Definition is_pool_end (ev : Event) : bool :=
  match ev with EvPoolEnd _ => true | _ => false end.

Fixpoint count (p : Event -> bool) (tr : Trace) : nat :=
  match tr with
  | [] => 0
  | ev :: tr' => (if p ev then 1 else 0) + count p tr'
  end%nat.

Definition rollback_calls : Trace -> nat := count is_rollback.
Definition release_calls : Trace -> nat := count is_release.
Definition pool_end_calls : Trace -> nat := count is_pool_end.

(** The access mode of the session on connection [c] after [tr], starting
    from [mode]: MySQL keeps what the last accepted
    SET SESSION TRANSACTION statement chose ([true] is READ ONLY). *)
Fixpoint session_read_only (c : ConnId) (mode : bool) (tr : Trace) : bool :=
  match tr with
  | [] => mode
  | EvExecute c' sql _ (Resolved _) :: tr' =>
      if bool_decide (c' = c) then
        if bool_decide (sql = "SET SESSION TRANSACTION READ ONLY")
        then session_read_only c true tr'
        else if bool_decide (sql = "SET SESSION TRANSACTION READ WRITE")
        then session_read_only c false tr'
        else session_read_only c mode tr'
      else session_read_only c mode tr'
  | _ :: tr' => session_read_only c mode tr'
  end.

(** [needle] occurs in [s]. *)
Definition includes (s needle : string) : Prop :=
  exists pre post, s = pre +:+ needle +:+ post.

(** The segment before the last one, if there is one. *)
Definition penultimate {A} (l : list A) : option A := last (removelast l).

(** The two statements that switch the access mode of the session. *)
Definition READ_ONLY : string := "SET SESSION TRANSACTION READ ONLY".
Definition READ_WRITE : string := "SET SESSION TRANSACTION READ WRITE".

(** The prefix check of the call-tool handler. *)
Definition is_select (sql : string) : bool :=
  JsString.startsWith (JsString.toLowerCase (JsString.trim sql)) "select".

(** What the handler returns when the read-only path throws [e]. *)
Definition error_result (e : JsError) : CallToolResult :=
  {| content := [ {| tc_type := "text";
                     tc_text := "MySQL query error: " +:+ error_toString e |} ];
     isError := Some true |}.

Definition COLUMNS_SQL : string :=
  "SELECT COLUMN_NAME, DATA_TYPE FROM information_schema.columns WHERE table_schema = ? AND table_name = ?".

Definition READ_RESOURCE_LOG : string := "Error in ReadResourceRequestSchema:".

(** The response that carries [text] for [uri]. *)
Definition document (uri text : string) : ReadResourceResult :=
  {| contents := [ {| rc_uri := uri; rc_mimeType := "application/json"; rc_text := text |} ] |}.

(** A response without the URI it echoes: media type and text per block. *)
Definition documents (r : Result ReadResourceResult) : Result (list (string * string)) :=
  match r with
  | Return res => Return ((fun c => (rc_mimeType c, rc_text c)) <$> contents res)
  | Throw e => Throw e
  end.

(** The bind parameters of the catalog query for a path. *)
Definition column_params (env : gmap string string) (segs : list string) : list JsValue :=
  [js_of_option (env !! "MYSQL_DB"); js_of_option (penultimate segs)].

(** The module-level checks pass. *)
Definition configured (env : gmap string string) : bool :=
  truthy (env !! "MYSQL_USER") && truthy (env !! "MYSQL_PASS")
  && truthy (env !! "MYSQL_DB")
  && (truthy (env !! "MYSQL_SOCKET")
      || (truthy (env !! "MYSQL_HOST") && truthy (env !! "MYSQL_PORT"))).

(** The catalog query of the list-resources handler and its log label. *)
Definition TABLES_SQL : string :=
  "SELECT TABLE_NAME FROM information_schema.tables WHERE table_schema = ?".

Definition LIST_RESOURCES_LOG : string := "Error in ListResourcesRequestSchema:".

(** The table a row of the table listing names, as the templates print it. *)
Definition table_of (row : Row) : string :=
  template_of_value (row_get "TABLE_NAME" row).

(** The URI the listing gives table [table] of database [db]. *)
Definition table_uri (db table : string) : string :=
  "mysql://" +:+ db +:+ "/" +:+ table +:+ "/schema".

(** [c] occurs in [s]. *)
Fixpoint has_char (c : ascii) (s : string) : bool :=
  match s with
  | String c' s' => Ascii.eqb c' c || has_char c s'
  | EmptyString => false
  end.

(** A one-byte character that is not white space: no white-space sequence
    of [trim] contains it. *)
Definition plain (c : ascii) : bool :=
  (N_of_ascii c <? 128)%N && negb (JsString.ws1 c).

(** Every character of [s] is one-byte white space. *)
Fixpoint all_ws1 (s : string) : bool :=
  match s with
  | String c s' => JsString.ws1 c && all_ws1 s'
  | EmptyString => true
  end.

(** The error a rejected driver call carries. *)
Definition rejection (ev : Event) : option JsError :=
  match ev with
  | EvGetConnection (Rejected e) | EvExecute _ _ _ (Rejected e)
  | EvBeginTransaction _ (Rejected e) | EvRollback _ (Rejected e)
  | EvPoolEnd (Rejected e) | EvTransportConnect (Rejected e) => Some e
  | _ => None
  end.

(** The handler threw the fault [code]. *)
Definition is_fault {A} (code : ErrorCode) (r : Result A) : Prop :=
  exists e, r = Throw e /\ err_code e = Some code.

(** The result of awaiting a promise. *)
Definition settle {A} (r : Outcome A) : Result A :=
  match r with
  | Resolved a => Return a
  | Rejected e => Throw e
  end.

(** The line [run] or its caller writes once the transport has settled. *)
Definition startup_log (r : Outcome unit) : Event :=
  match r with
  | Resolved _ => EvConsole Stderr "MAMP MySQL MCP server running on stdio" None
  | Rejected e => EvConsole Stderr EmptyString (Some e)
  end.

(** A successful acquisition of a connection. *)
Definition is_acquired (ev : Event) : bool :=
  match ev with EvGetConnection (Resolved _) => true | _ => false end.

Definition acquired_calls : Trace -> nat := count is_acquired.

(** Between [tr] and [tr'] as many connections were released as were
    acquired. *)
Definition balanced (tr tr' : Trace) : Prop :=
  (acquired_calls tr' + release_calls tr = release_calls tr' + acquired_calls tr)%nat.

(* ===================================================================== *)
(** ** A database to run examples against *)
(* ===================================================================== *)

(** One connection, numbered 7.  A statement is rejected with the error
    [rejects] names for it and otherwise answered with [answer]; a rollback
    is rejected when [rollback_error] says so; the rest succeeds. *)
Definition test_driver (rejects : string -> option JsError)
    (answer : string -> option (list JsValue) -> Rows)
    (rollback_error : option JsError) : Driver :=
  {| drv_getConnection := fun _ => Resolved 7%nat;
     drv_execute := fun _ _ sql params =>
       match rejects sql with
       | Some e => Rejected e
       | None => Resolved (answer sql params)
       end;
     drv_beginTransaction := fun _ _ => Resolved tt;
     drv_rollback := fun _ _ =>
       match rollback_error with
       | Some e => Rejected e
       | None => Resolved tt
       end;
     drv_end := fun _ => Resolved tt;
     drv_connect := fun _ => Resolved tt |}.

Definition no_table : JsError := Error "Table 'shop.nonexistent_table' doesn't exist".

(** Rejects exactly the statement [bad]. *)
Definition rejects_only (bad : string) (e : JsError) (sql : string) : option JsError :=
  if bool_decide (sql = bad) then Some e else None.

(** The answer to SELECT 1 AS x; any other statement yields no rows. *)
Definition one_row : string -> option (list JsValue) -> Rows :=
  fun sql _ => if bool_decide (sql = "SELECT 1 AS x") then [[("x", SqlInt 1)]] else [].

(** A URL parser for the examples: [scheme://host/path], no query, no
    fragment, no escapes. *)
Fixpoint take_until (stop : ascii) (s : string) : string * string :=
  match s with
  | String c s' =>
      if Ascii.eqb c stop then (EmptyString, s)
      else let (a, b) := take_until stop s' in (String c a, b)
  | EmptyString => (EmptyString, EmptyString)
  end.

Definition simple_URL (uri : string) : Outcome URL :=
  let (scheme, rest) := take_until ":" uri in
  match rest with
  | String ":" (String "/" (String "/" rest')) =>
      let (host, path) := take_until "/" rest' in
      Resolved {| url_protocol := scheme +:+ ":"; url_host := host;
                  url_pathname := path; url_search := EmptyString;
                  url_hash := EmptyString |}
  | _ => Rejected {| err_name := "TypeError"; err_message := "Invalid URL";
                     err_code := None |}
  end.

(** A database on which every statement succeeds. *)
Definition healthy : Driver := test_driver (fun _ => None) one_row None.

(** A database that rejects the reset to read-write. *)
Definition no_reset : Driver :=
  test_driver (rejects_only READ_WRITE (Error "Lost connection to MySQL server during query"))
    one_row None.

(** A database without the table the statement names. *)
Definition no_such_table : Driver :=
  test_driver (rejects_only "SELECT * FROM nonexistent_table" no_table) one_row None.

Definition sql_args (sql : string) : gmap string JsValue := {[ "sql" := VString sql ]}.

(** The environment of the examples. *)
Definition shop_env : gmap string string :=
  list_to_map
    [ ("MYSQL_USER", "root"); ("MYSQL_PASS", "secret"); ("MYSQL_DB", "shop");
      ("MYSQL_HOST", "127.0.0.1"); ("MYSQL_PORT", "8889") ].

(** The catalog of the examples: database shop has one table, orders. *)
Definition catalog_answer (sql : string) (params : option (list JsValue)) : Rows :=
  match params with
  | Some [VString db; VString table] =>
      if bool_decide (sql = COLUMNS_SQL) && bool_decide (db = "shop")
         && bool_decide (table = "orders")
      then [ [("COLUMN_NAME", SqlText "id"); ("DATA_TYPE", SqlText "int")];
             [("COLUMN_NAME", SqlText "total"); ("DATA_TYPE", SqlText "decimal")] ]
      else []
  | _ => []
  end.

Definition catalog : Driver := test_driver (fun _ => None) catalog_answer None.

(** The table listing of the examples: tables orders and items. *)
Definition tables_answer (sql : string) (params : option (list JsValue)) : Rows :=
  if bool_decide (sql = TABLES_SQL)
  then [ [("TABLE_NAME", SqlText "orders")]; [("TABLE_NAME", SqlText "items")] ]
  else catalog_answer sql params.

Definition shop : Driver := test_driver (fun _ => None) tables_answer None.

(** A database that rejects every rollback and the statement [bad]. *)
Definition broken (bad : string) : Driver :=
  test_driver (rejects_only bad no_table) one_row
    (Some (Error "Can't add new command when connection is in closed state")).

(** A pool that cannot be ended. *)
Definition stuck_pool : Driver :=
  {| drv_getConnection := drv_getConnection healthy;
     drv_execute := drv_execute healthy;
     drv_beginTransaction := drv_beginTransaction healthy;
     drv_rollback := drv_rollback healthy;
     drv_end := fun _ => Rejected (Error "Pool is closed.");
     drv_connect := drv_connect healthy |}.

(** A database that refuses the table query. *)
Definition no_catalog : Driver :=
  test_driver (rejects_only TABLES_SQL (Error "SELECT command denied to user"))
    one_row None.

(** A database that refuses the column query. *)
Definition no_columns : Driver :=
  test_driver (rejects_only COLUMNS_SQL (Error "SELECT command denied to user"))
    one_row None.

Definition mamp_env : gmap string string :=
  <["MYSQL_SOCKET" := "/Applications/MAMP/tmp/mysql/mysql.sock"]> shop_env.

(* ===================================================================== *)
(** ** The library functions on examples *)
(* ===================================================================== *)

Example trim_ex :
  JsString.trim (String "009" "  SeLeCT 1 " +:+ String "194" (String "160" EmptyString))
  = "SeLeCT 1".
Proof. reflexivity. Qed.

Example split_ex : JsString.split "/orders/schema" "/" = [EmptyString; "orders"; "schema"].
Proof. reflexivity. Qed.

Example split_empty : JsString.split EmptyString "/" = [EmptyString].
Proof. reflexivity. Qed.

Example stringify_select_1 :
  JSON.stringify [[("x", SqlInt 1)]]
  = "[" +:+ JSON.nl +:+ "  {" +:+ JSON.nl +:+ "    " +:+ JSON.quote "x" +:+ ": 1"
    +:+ JSON.nl +:+ "  }" +:+ JSON.nl +:+ "]".
Proof. reflexivity. Qed.

(** A quote, a backslash and a line feed inside a string are escaped. *)
Example quote_escapes :
  JSON.quote (String "034" (String "092" (String "010" "a")))
  = String "034" (String "092" (String "034" (String "092" (String "092"
      (String "092" ("na" +:+ String "034" EmptyString)))))).
Proof. reflexivity. Qed.

Example parseInt_10 : ParseInt.parseInt "10" = Some 10.
Proof. reflexivity. Qed.
Example parseInt_port : ParseInt.parseInt " 3306abc" = Some 3306.
Proof. reflexivity. Qed.
Example parseInt_nan : ParseInt.parseInt "abc" = None.
Proof. reflexivity. Qed.

Example executeReadOnlyQuery_select_1 :
  executeReadOnlyQuery healthy "SELECT 1 AS x" []
  = (Return [[("x", SqlInt 1)]],
     [ EvGetConnection (Resolved 7%nat);
       EvExecute 7%nat "SET SESSION TRANSACTION READ ONLY" None (Resolved []);
       EvBeginTransaction 7%nat (Resolved tt);
       EvExecute 7%nat "SELECT 1 AS x" None (Resolved [[("x", SqlInt 1)]]);
       EvRollback 7%nat (Resolved tt);
       EvExecute 7%nat "SET SESSION TRANSACTION READ WRITE" None (Resolved []);
       EvRelease 7%nat ]).
Proof. reflexivity. Qed.

(* ===================================================================== *)
(** ** Lemmas on traces and computations *)
(* ===================================================================== *)

Lemma count_app p (tr1 tr2 : Trace) :
  count p (tr1 ++ tr2) = (count p tr1 + count p tr2)%nat.
Proof. induction tr1 as [|ev tr1 IH]; simpl; [done | rewrite IH; lia]. Qed.

Lemma session_read_only_app c mode (tr1 tr2 : Trace) :
  session_read_only c mode (tr1 ++ tr2)
  = session_read_only c (session_read_only c mode tr1) tr2.
Proof.
  revert mode. induction tr1 as [|ev tr1 IH]; intros mode; simpl; [done|].
  destruct ev as [| |c' sql ps [rows|e]| | | | | | |]; try apply IH.
  repeat case_bool_decide; apply IH.
Qed.

Lemma pop_last_removelast {A} (l : list A) : pop l = (last l, removelast l).
Proof.
  induction l as [|x [|y l] IH]; try reflexivity.
  change (pop (x :: y :: l)) with (let (r, rest) := pop (y :: l) in (r, x :: rest)).
  rewrite IH. reflexivity.
Qed.

Lemma string_app_empty_r (s : string) : s +:+ EmptyString = s.
Proof.
  induction s as [|c s IH]; [done|].
  change (String c (s +:+ EmptyString) = String c s). by rewrite IH.
Qed.

Lemma string_app_assoc (s1 s2 s3 : string) :
  (s1 +:+ s2) +:+ s3 = s1 +:+ s2 +:+ s3.
Proof.
  induction s1 as [|c s1 IH]; [done|].
  change (String c ((s1 +:+ s2) +:+ s3) = String c (s1 +:+ s2 +:+ s3)).
  by rewrite IH.
Qed.

(** The message of an error occurs in its rendering. *)
Lemma error_toString_includes (e : JsError) :
  includes (error_toString e) (err_message e).
Proof.
  destruct e as [name msg code]. unfold error_toString. simpl.
  destruct name as [|a name].
  - exists EmptyString, EmptyString. by rewrite string_app_empty_r.
  - destruct msg as [|b msg].
    + by exists EmptyString, (String a name).
    + exists (String a name +:+ ": "), EmptyString.
      by rewrite string_app_empty_r, string_app_assoc.
Qed.

(** Runs a computation one driver answer at a time. *)
Ltac unfold_calls :=
  unfold executeReadOnlyQuery, executeQuery, getConnection, execute,
    beginTransaction, rollback, release, pool_end, console, new_URL,
    try_finally, try_catch, throw, await, emit, mbind, M_bind, mret, M_ret in *.

Ltac answer :=
  match goal with
  | |- context [match drv_getConnection ?d ?t with _ => _ end] =>
      destruct (drv_getConnection d t) eqn:?
  | |- context [match drv_execute ?d ?t ?c ?s ?p with _ => _ end] =>
      destruct (drv_execute d t c s p) eqn:?
  | |- context [match drv_beginTransaction ?d ?t ?c with _ => _ end] =>
      destruct (drv_beginTransaction d t c) eqn:?
  | |- context [match drv_rollback ?d ?t ?c with _ => _ end] =>
      destruct (drv_rollback d t c) eqn:?
  | |- context [match drv_end ?d ?t with _ => _ end] =>
      destruct (drv_end d t) eqn:?
  end; cbn [fst snd].

(** The list without its last element, as a term. *)
Ltac init_of l :=
  lazymatch l with
  | [_] => constr:(@nil Event)
  | ?x :: ?l' => let r := init_of l' in constr:(x :: r)
  end.

(** Closes [ev ∈ l] for an explicit [l]. *)
Ltac find_event := repeat constructor.

(* ===================================================================== *)
(** ** The read-only execution path *)
(* ===================================================================== *)

Section ReadOnlyPath.

Variable drv : Driver.

(** When no connection can be had the call throws at once: nothing is
    rolled back and nothing released. *)
Lemma executeReadOnlyQuery_no_connection sql tr e :
  drv_getConnection drv tr = Rejected e ->
  executeReadOnlyQuery drv sql tr = (Throw e, tr ++ [EvGetConnection (Rejected e)]).
Proof. intros H. unfold_calls. by rewrite H. Qed.

(** When the statement is rejected and the rollback goes through, the
    statement's own error is what the caller sees. *)
Lemma executeReadOnlyQuery_statement_error sql tr c rows e :
  let tr1 := tr ++ [EvGetConnection (Resolved c)] in
  let tr2 := tr1 ++ [EvExecute c READ_ONLY None (Resolved rows)] in
  let tr3 := tr2 ++ [EvBeginTransaction c (Resolved tt)] in
  let tr4 := tr3 ++ [EvExecute c sql None (Rejected e)] in
  drv_getConnection drv tr = Resolved c ->
  drv_execute drv tr1 c READ_ONLY None = Resolved rows ->
  drv_beginTransaction drv tr2 c = Resolved tt ->
  drv_execute drv tr3 c sql None = Rejected e ->
  drv_rollback drv tr4 c = Resolved tt ->
  executeReadOnlyQuery drv sql tr
  = (Throw e, tr4 ++ [EvRollback c (Resolved tt); EvRelease c]).
Proof.
  intros tr1 tr2 tr3 tr4 H1 H2 H3 H4 H5. subst tr1 tr2 tr3 tr4.
  unfold READ_ONLY in *. unfold_calls.
  rewrite H1; cbn. rewrite H2; cbn. rewrite H3; cbn. rewrite H4; cbn.
  rewrite H5; cbn. by rewrite <- !app_assoc.
Qed.

(** C1 (amended).  When no connection can be acquired the call throws and
    nothing is rolled back or released.  Once a connection [c] is acquired,
    the call releases it exactly once, as its last action, whether it
    returns or throws; in between, rollback is called once or twice, and
    exactly once unless a rollback or the reset to read-write was
    rejected -- in particular it is called once both when the statement
    succeeds and when the statement fails.  When the statement was
    accepted and the rollback of the try block is rejected, or that
    rollback is accepted and the reset to read-write is rejected, the catch
    block calls rollback a second time. *)
Theorem executeReadOnlyQuery_rollback_release sql tr :
  (forall e, drv_getConnection drv tr = Rejected e ->
     executeReadOnlyQuery drv sql tr = (Throw e, tr ++ [EvGetConnection (Rejected e)]))
  /\ (forall c, drv_getConnection drv tr = Resolved c ->
      exists evs,
        snd (executeReadOnlyQuery drv sql tr)
        = tr ++ EvGetConnection (Resolved c) :: evs ++ [EvRelease c]
        /\ release_calls evs = 0%nat
        /\ (1 <= rollback_calls evs <= 2)%nat
        /\ ((forall e, EvRollback c (Rejected e) ∉ evs) ->
            (forall e, EvExecute c READ_WRITE None (Rejected e) ∉ evs) ->
            rollback_calls evs = 1%nat)
        /\ (forall r1 rows e,
              let tr1 := tr ++ [EvGetConnection (Resolved c)] in
              let tr2 := tr1 ++ [EvExecute c READ_ONLY None (Resolved r1)] in
              let tr3 := tr2 ++ [EvBeginTransaction c (Resolved tt)] in
              let tr4 := tr3 ++ [EvExecute c sql None (Resolved rows)] in
              let tr5 := tr4 ++ [EvRollback c (Rejected e)] in
              drv_execute drv tr1 c READ_ONLY None = Resolved r1 ->
              drv_beginTransaction drv tr2 c = Resolved tt ->
              drv_execute drv tr3 c sql None = Resolved rows ->
              drv_rollback drv tr4 c = Rejected e ->
              evs = [ EvExecute c READ_ONLY None (Resolved r1);
                      EvBeginTransaction c (Resolved tt);
                      EvExecute c sql None (Resolved rows);
                      EvRollback c (Rejected e);
                      EvRollback c (drv_rollback drv tr5 c) ]
              /\ rollback_calls evs = 2%nat)
        /\ (forall r1 rows e,
              let tr1 := tr ++ [EvGetConnection (Resolved c)] in
              let tr2 := tr1 ++ [EvExecute c READ_ONLY None (Resolved r1)] in
              let tr3 := tr2 ++ [EvBeginTransaction c (Resolved tt)] in
              let tr4 := tr3 ++ [EvExecute c sql None (Resolved rows)] in
              let tr5 := tr4 ++ [EvRollback c (Resolved tt)] in
              let tr6 := tr5 ++ [EvExecute c READ_WRITE None (Rejected e)] in
              drv_execute drv tr1 c READ_ONLY None = Resolved r1 ->
              drv_beginTransaction drv tr2 c = Resolved tt ->
              drv_execute drv tr3 c sql None = Resolved rows ->
              drv_rollback drv tr4 c = Resolved tt ->
              drv_execute drv tr5 c READ_WRITE None = Rejected e ->
              evs = [ EvExecute c READ_ONLY None (Resolved r1);
                      EvBeginTransaction c (Resolved tt);
                      EvExecute c sql None (Resolved rows);
                      EvRollback c (Resolved tt);
                      EvExecute c READ_WRITE None (Rejected e);
                      EvRollback c (drv_rollback drv tr6 c) ]
              /\ rollback_calls evs = 2%nat)).
Proof.
  split; [intros e He; by apply executeReadOnlyQuery_no_connection|].
  intros c Hc. unfold READ_ONLY, READ_WRITE. unfold_calls. rewrite Hc. cbn.
  repeat answer;
    rewrite <- !app_assoc; cbn [app];
    match goal with
    | |- exists evs, _ ++ _ :: ?l = _ /\ _ =>
        let i := init_of l in exists i
    end;
    (split; [reflexivity|]);
    (split; [reflexivity|]);
    (split; [cbn; lia|]);
    (split;
     [ intros Hrb Hrw; try reflexivity; exfalso;
       solve [ eapply Hrb; find_event
             | eapply Hrw; find_event ]
     | split; intros r1 rows0 e'; intros;
       repeat first
         [ match goal with
           | H : Resolved _ = Resolved _ |- _ => injection H as H; subst
           | H : Resolved _ = Rejected _ |- _ => discriminate H
           | H : Rejected _ = Resolved _ |- _ => discriminate H
           | H : Rejected _ = Rejected _ |- _ => injection H as H; subst
           end
         | match goal with
           | Ha : ?x = _, Hb : ?x = _ |- _ =>
               lazymatch x with
               | drv_execute _ _ _ _ _ => idtac
               | drv_beginTransaction _ _ _ => idtac
               | drv_rollback _ _ _ => idtac
               end;
               rewrite Ha in Hb
           end ];
       repeat match goal with u : unit |- _ => destruct u end;
       repeat match goal with H : drv_rollback _ _ _ = _ |- _ => rewrite H end;
       split; reflexivity ]).
Qed.

End ReadOnlyPath.

Lemma executeReadOnlyQuery_rollback_release_witness :
  (exists evs,
     snd (executeReadOnlyQuery healthy "SELECT 1 AS x" [])
     = [] ++ EvGetConnection (Resolved 7%nat) :: evs ++ [EvRelease 7%nat]
     /\ release_calls evs = 0%nat
     /\ (1 <= rollback_calls evs <= 2)%nat)
  /\ (exists evs,
        snd (executeReadOnlyQuery no_reset "SELECT 1 AS x" [])
        = [] ++ EvGetConnection (Resolved 7%nat) :: evs ++ [EvRelease 7%nat]
        /\ rollback_calls evs = 2%nat)
  /\ (exists evs,
        snd (executeReadOnlyQuery
               (broken "SELECT * FROM nonexistent_table") "SELECT 1 AS x" [])
        = [] ++ EvGetConnection (Resolved 7%nat) :: evs ++ [EvRelease 7%nat]
        /\ rollback_calls evs = 2%nat).
Proof.
  split; [|split].
  - destruct (proj2 (executeReadOnlyQuery_rollback_release healthy "SELECT 1 AS x" [])
                7%nat eq_refl) as (evs & Htr & Hrel & Hroll & _).
    exists evs. split; [exact Htr|]. split; [exact Hrel | exact Hroll].
  - destruct (proj2 (executeReadOnlyQuery_rollback_release no_reset "SELECT 1 AS x" [])
                7%nat eq_refl) as (evs & Htr & _ & _ & _ & _ & Hreset).
    exists evs. split; [exact Htr|].
    exact (proj2 (Hreset [] [[("x", SqlInt 1)]]
                    (Error "Lost connection to MySQL server during query")
                    eq_refl eq_refl eq_refl eq_refl eq_refl)).
  - destruct (proj2 (executeReadOnlyQuery_rollback_release
                       (broken "SELECT * FROM nonexistent_table") "SELECT 1 AS x" [])
                7%nat eq_refl) as (evs & Htr & _ & _ & _ & Hrollback & _).
    exists evs. split; [exact Htr|].
    exact (proj2 (Hrollback [] [[("x", SqlInt 1)]]
                    (Error "Can't add new command when connection is in closed state")
                    eq_refl eq_refl eq_refl eq_refl)).
Defined.

(** C1 (as stated) fails: a statement that passes the prefix check and
    succeeds, on a connection whose reset to read-write is rejected, is
    rolled back twice -- once in the try block and once more in the catch
    block. *)
Lemma executeReadOnlyQuery_rollback_twice :
  is_select "SELECT 1 AS x" = true
  /\ executeReadOnlyQuery no_reset "SELECT 1 AS x" []
     = (Throw (Error "Lost connection to MySQL server during query"),
        [ EvGetConnection (Resolved 7%nat);
          EvExecute 7%nat READ_ONLY None (Resolved []);
          EvBeginTransaction 7%nat (Resolved tt);
          EvExecute 7%nat "SELECT 1 AS x" None (Resolved [[("x", SqlInt 1)]]);
          EvRollback 7%nat (Resolved tt);
          EvExecute 7%nat READ_WRITE None
            (Rejected (Error "Lost connection to MySQL server during query"));
          EvRollback 7%nat (Resolved tt);
          EvRelease 7%nat ])
  /\ rollback_calls (snd (executeReadOnlyQuery no_reset "SELECT 1 AS x" [])) <> 1%nat.
Proof. split; [reflexivity|]. split; [reflexivity|]. vm_compute. lia. Qed.

(** C2 at its failing input.  The statement is rejected; the catch block
    rolls back and rethrows, the finally block releases, and the session is
    still read-only when connection 7 is back in the pool: only the
    success path executes the reset. *)
Theorem executeReadOnlyQuery_failure_stays_read_only :
  is_select "SELECT * FROM nonexistent_table" = true
  /\ executeReadOnlyQuery no_such_table "SELECT * FROM nonexistent_table" []
     = (Throw no_table,
        [ EvGetConnection (Resolved 7%nat);
          EvExecute 7%nat READ_ONLY None (Resolved []);
          EvBeginTransaction 7%nat (Resolved tt);
          EvExecute 7%nat "SELECT * FROM nonexistent_table" None (Rejected no_table);
          EvRollback 7%nat (Resolved tt);
          EvRelease 7%nat ])
  /\ last (snd (executeReadOnlyQuery no_such_table "SELECT * FROM nonexistent_table" []))
     = Some (EvRelease 7%nat)
  /\ session_read_only 7%nat false
       (snd (executeReadOnlyQuery no_such_table "SELECT * FROM nonexistent_table" []))
     = true.
Proof. repeat split; reflexivity. Qed.

(** The same on the success path, for comparison: the reset is executed
    and the session is read-write at the release. *)
Example executeReadOnlyQuery_success_resets :
  session_read_only 7%nat false (snd (executeReadOnlyQuery healthy "SELECT 1 AS x" []))
  = false.
Proof. reflexivity. Qed.

Lemma is_select_not_reset sql : is_select sql = true -> sql <> READ_WRITE.
Proof. intros H ->. vm_compute in H. discriminate. Qed.

(** In general: whenever the session was switched to read-only and the
    call throws, the connection goes back to the pool read-only. *)
Lemma executeReadOnlyQuery_throw_stays_read_only drv sql tr c rows e tr' mode :
  is_select sql = true ->
  drv_getConnection drv tr = Resolved c ->
  drv_execute drv (tr ++ [EvGetConnection (Resolved c)]) c READ_ONLY None = Resolved rows ->
  executeReadOnlyQuery drv sql tr = (Throw e, tr') ->
  last tr' = Some (EvRelease c) /\ session_read_only c mode tr' = true.
Proof.
  intros Hsel Hc Hro. apply is_select_not_reset in Hsel.
  unfold READ_ONLY, READ_WRITE in *.
  unfold_calls. rewrite Hc. cbn. rewrite Hro. cbn.
  repeat answer; intros [= <- <-];
    (split; [by rewrite last_snoc|]);
    rewrite !session_read_only_app; cbn;
    repeat (case_bool_decide; try congruence); cbn;
    repeat (case_bool_decide; try congruence).
Qed.

(* ===================================================================== *)
(** ** The call-tool handler *)
(* ===================================================================== *)

Lemma typeof_string v : typeof v = "string" <-> exists s, v = VString s.
Proof.
  split; [|by intros [s ->]].
  destruct v; try discriminate. eauto.
Qed.

Section CallTool.

Variable drv : Driver.

(** Past the three checks the handler is the read-only path, with both of
    its outcomes turned into a response. *)
Lemma callTool_past_gates (args : gmap string JsValue) (sql : string) (tr : Trace) :
  args !! "sql" = Some (VString sql) ->
  is_select sql = true ->
  callTool drv {| ct_name := "mysql_query"; ct_arguments := Some args |} tr
  = match executeReadOnlyQuery drv sql tr with
    | (Return rows, tr') =>
        (Return {| content := [ {| tc_type := "text";
                                   tc_text := JSON.stringify rows |} ];
                   isError := None |}, tr')
    | (Throw e, tr') => (Return (error_result e), tr')
    end.
Proof.
  intros Hsql Hgate. unfold is_select in Hgate.
  unfold callTool, get_prop. cbn [ct_name ct_arguments].
  rewrite Hsql. cbn [default from_option id typeof string_of]. cbv zeta.
  rewrite !bool_decide_eq_true_2 by done.
  rewrite Hgate. cbn.
  unfold try_catch, mbind, M_bind, mret, M_ret.
  by destruct (executeReadOnlyQuery drv sql tr) as [[rows|e] tr'].
Qed.

(** C5.  The name is checked first: any name other than mysql_query is
    MethodNotFound, whatever the arguments are.  Under the right name,
    absent arguments or an [sql] that is not a string are InvalidParams.
    Both faults are raised before anything else happens. *)
Theorem callTool_name_then_params (request : CallToolRequest) (tr : Trace) :
  (ct_name request <> "mysql_query" ->
   callTool drv request tr
   = (Throw (McpError MethodNotFound ("Unknown tool: " +:+ ct_name request)), tr))
  /\ (ct_name request = "mysql_query" ->
      (ct_arguments request = None
       \/ exists args, ct_arguments request = Some args
                       /\ typeof (get_prop args "sql") <> "string") ->
      callTool drv request tr
      = (Throw (McpError InvalidParams "Invalid SQL query"), tr)).
Proof.
  destruct request as [name args]. cbn [ct_name ct_arguments]. split.
  - intros Hname. unfold callTool. cbn [ct_name].
    rewrite bool_decide_eq_false_2 by done. reflexivity.
  - intros -> Hargs. unfold callTool. cbn [ct_name ct_arguments].
    rewrite bool_decide_eq_true_2 by done.
    destruct Hargs as [-> | (a & -> & Hty)]; [reflexivity|].
    by rewrite bool_decide_eq_false_2 by done.
Qed.

(** C3.  A text that does not start with select once trimmed and
    lowered is refused with InvalidRequest, and the trace is unchanged:
    no connection is taken and no statement reaches the database. *)
Theorem callTool_rejects_non_select (args : gmap string JsValue) (sql : string) (tr : Trace) :
  args !! "sql" = Some (VString sql) ->
  JsString.startsWith (JsString.toLowerCase (JsString.trim sql)) "select" = false ->
  callTool drv {| ct_name := "mysql_query"; ct_arguments := Some args |} tr
  = (Throw (McpError InvalidRequest "Only SELECT queries are allowed"), tr).
Proof.
  intros Hsql Hgate. unfold callTool, get_prop. cbn [ct_name ct_arguments].
  rewrite Hsql. cbn [default from_option id typeof string_of]. cbv zeta.
  rewrite !bool_decide_eq_true_2 by done.
  rewrite Hgate. reflexivity.
Qed.

(** C4.  Past the gates the handler always returns: a failure [e] of the
    read-only path becomes a response with one text block that holds the
    message of [e] and with [isError] set, and is never thrown. *)
Theorem callTool_failure_is_a_response (args : gmap string JsValue) (sql : string) (tr : Trace) :
  args !! "sql" = Some (VString sql) ->
  JsString.startsWith (JsString.toLowerCase (JsString.trim sql)) "select" = true ->
  let request := {| ct_name := "mysql_query"; ct_arguments := Some args |} in
  (exists res, fst (callTool drv request tr) = Return res)
  /\ snd (callTool drv request tr) = snd (executeReadOnlyQuery drv sql tr)
  /\ forall e tr',
       executeReadOnlyQuery drv sql tr = (Throw e, tr') ->
       callTool drv request tr = (Return (error_result e), tr')
       /\ isError (error_result e) = Some true
       /\ exists block, content (error_result e) = [block]
                        /\ tc_type block = "text"
                        /\ includes (tc_text block) (err_message e).
Proof.
  intros Hsql Hgate request. subst request.
  rewrite (callTool_past_gates args sql tr Hsql Hgate).
  destruct (executeReadOnlyQuery drv sql tr) as [[rows|e] tr'] eqn:Hrun.
  - split; [eauto|]. split; [done|]. intros e tr'' [=].
  - split; [eauto|]. split; [done|]. intros e' tr'' [= <- <-].
    split; [done|]. split; [done|].
    eexists. split; [reflexivity|]. split; [done|]. cbn.
    destruct (error_toString_includes e) as (pre & post & ->).
    exists ("MySQL query error: " +:+ pre), post.
    by rewrite string_app_assoc.
Qed.

(** The scenario of a statement the database rejects: the response carries
    the database's own message. *)
Lemma callTool_statement_error (args : gmap string JsValue) (sql : string) (tr : Trace)
    (c : ConnId) (rows : Rows) (e : JsError) :
  args !! "sql" = Some (VString sql) ->
  is_select sql = true ->
  let tr1 := tr ++ [EvGetConnection (Resolved c)] in
  let tr2 := tr1 ++ [EvExecute c READ_ONLY None (Resolved rows)] in
  let tr3 := tr2 ++ [EvBeginTransaction c (Resolved tt)] in
  let tr4 := tr3 ++ [EvExecute c sql None (Rejected e)] in
  drv_getConnection drv tr = Resolved c ->
  drv_execute drv tr1 c READ_ONLY None = Resolved rows ->
  drv_beginTransaction drv tr2 c = Resolved tt ->
  drv_execute drv tr3 c sql None = Rejected e ->
  drv_rollback drv tr4 c = Resolved tt ->
  fst (callTool drv {| ct_name := "mysql_query"; ct_arguments := Some args |} tr)
  = Return (error_result e).
Proof.
  intros Hsql Hgate tr1 tr2 tr3 tr4 H1 H2 H3 H4 H5.
  rewrite (callTool_past_gates args sql tr Hsql Hgate).
  by rewrite (executeReadOnlyQuery_statement_error drv sql tr c rows e H1 H2 H3 H4 H5).
Qed.

End CallTool.

Example callTool_select_1 :
  fst (callTool healthy {| ct_name := "mysql_query"; ct_arguments := Some (sql_args "SELECT 1 AS x") |} [])
  = Return {| content := [ {| tc_type := "text";
                              tc_text := JSON.stringify [[("x", SqlInt 1)]] |} ];
              isError := None |}.
Proof. vm_compute. reflexivity. Qed.

Example callTool_nonexistent_table :
  fst (callTool no_such_table
         {| ct_name := "mysql_query";
            ct_arguments := Some (sql_args "SELECT * FROM nonexistent_table") |} [])
  = Return {| content :=
                [ {| tc_type := "text";
                     tc_text := "MySQL query error: Error: Table 'shop.nonexistent_table' doesn't exist" |} ];
              isError := Some true |}.
Proof. vm_compute. reflexivity. Qed.

Lemma callTool_name_then_params_witness :
  callTool healthy {| ct_name := "drop_table"; ct_arguments := None |} []
  = (Throw (McpError MethodNotFound "Unknown tool: drop_table"), [])
  /\ callTool healthy {| ct_name := "mysql_query";
                         ct_arguments := Some {[ "sql" := VNumber 1 ]} |} []
     = (Throw (McpError InvalidParams "Invalid SQL query"), []).
Proof.
  split.
  - apply (proj1 (callTool_name_then_params healthy
                    {| ct_name := "drop_table"; ct_arguments := None |} [])).
    discriminate.
  - apply (proj2 (callTool_name_then_params healthy
                    {| ct_name := "mysql_query";
                       ct_arguments := Some {[ "sql" := VNumber 1 ]} |} []));
      [reflexivity|].
    right. eexists. split; [reflexivity|]. vm_compute. discriminate.
Defined.

Lemma callTool_rejects_non_select_witness :
  callTool healthy {| ct_name := "mysql_query";
                      ct_arguments := Some (sql_args "DELETE FROM orders") |} []
  = (Throw (McpError InvalidRequest "Only SELECT queries are allowed"), []).
Proof.
  apply (callTool_rejects_non_select healthy (sql_args "DELETE FROM orders")
           "DELETE FROM orders" []); vm_compute; reflexivity.
Defined.

Lemma callTool_failure_is_a_response_witness :
  let request := {| ct_name := "mysql_query";
                    ct_arguments := Some (sql_args "SELECT * FROM nonexistent_table") |} in
  callTool no_such_table request []
  = (Return (error_result no_table),
     snd (executeReadOnlyQuery no_such_table "SELECT * FROM nonexistent_table" []))
  /\ includes (tc_text {| tc_type := "text";
                          tc_text := "MySQL query error: " +:+ error_toString no_table |})
       (err_message no_table).
Proof.
  intros request.
  destruct (callTool_failure_is_a_response no_such_table
              (sql_args "SELECT * FROM nonexistent_table")
              "SELECT * FROM nonexistent_table" [] eq_refl eq_refl)
    as (_ & _ & Hthrow).
  destruct (Hthrow no_table _ eq_refl) as (Hcall & _ & block & [= <-] & _ & Hmsg).
  split; [exact Hcall | exact Hmsg].
Defined.

(* ===================================================================== *)
(** ** The read-resource handler *)
(* ===================================================================== *)

Section ReadResource.

Variable env : gmap string string.
Variable drv : Driver.
Variable URL_parse : string -> Outcome URL.

(** Past the check of the last segment the handler is the catalog query,
    with its error logged and rethrown. *)
Lemma readResource_query request u tr :
  URL_parse (rr_uri request) = Resolved u ->
  let segs := JsString.split (url_pathname u) "/" in
  last segs = Some "schema" ->
  readResource env drv URL_parse request tr
  = match executeQuery drv COLUMNS_SQL (column_params env segs) tr with
    | (Return rows, tr') => (Return (document (rr_uri request) (JSON.stringify rows)), tr')
    | (Throw e, tr') => (Throw e, tr' ++ [EvConsole Stderr READ_RESOURCE_LOG (Some e)])
    end.
Proof.
  intros Hu segs Hlast. unfold readResource, new_URL, try_catch.
  unfold mbind at 1. unfold M_bind at 1. rewrite Hu.
  fold segs. rewrite (pop_last_removelast segs).
  rewrite (pop_last_removelast (removelast segs)).
  rewrite Hlast. rewrite bool_decide_eq_true_2 by done.
  unfold column_params, penultimate, MYSQL_DB, COLUMNS_SQL, document,
    console, emit, throw, mbind, M_bind, mret, M_ret.
  cbn [negb].
  by destruct (executeQuery _ _ _ tr) as [[rows|e] tr'].
Qed.

Lemma executeQuery_resolved sql params tr c rows :
  drv_getConnection drv tr = Resolved c ->
  drv_execute drv (tr ++ [EvGetConnection (Resolved c)]) c sql (Some params) = Resolved rows ->
  executeQuery drv sql params tr
  = (Return rows,
     tr ++ [EvGetConnection (Resolved c); EvExecute c sql (Some params) (Resolved rows);
            EvRelease c]).
Proof.
  intros Hc Hq. unfold_calls. rewrite Hc. cbn. rewrite Hq. cbn.
  by rewrite <- !app_assoc.
Qed.

(** Every call of [executeQuery] that gets a connection starts with the
    statement and its parameters. *)
Lemma executeQuery_statement sql params tr c :
  drv_getConnection drv tr = Resolved c ->
  exists r,
    snd (executeQuery drv sql params tr)
    = tr ++ [EvGetConnection (Resolved c); EvExecute c sql (Some params) r; EvRelease c].
Proof.
  intros Hc. unfold_calls. rewrite Hc. cbn.
  answer; eexists; by rewrite <- !app_assoc.
Qed.

(** C6.  A URI the platform cannot parse, or one whose last path segment
    is not schema, makes the request fail (logged, then thrown) without
    a call to the database.  Otherwise the catalog query is run with the
    configured database and the segment before the last as its
    parameters, and its rows are returned as JSON text: no rows give the
    text of the empty array, not an error. *)
Theorem readResource_last_segment (request : ReadResourceRequest) (tr : Trace) :
  (forall e, URL_parse (rr_uri request) = Rejected e ->
     readResource env drv URL_parse request tr
     = (Throw e, tr ++ [EvConsole Stderr READ_RESOURCE_LOG (Some e)]))
  /\ (forall u, URL_parse (rr_uri request) = Resolved u ->
      let segs := JsString.split (url_pathname u) "/" in
      (last segs <> Some "schema" ->
         readResource env drv URL_parse request tr
         = (Throw (Error "Invalid resource URI"),
            tr ++ [EvConsole Stderr READ_RESOURCE_LOG (Some (Error "Invalid resource URI"))]))
      /\ (last segs = Some "schema" ->
          forall c, drv_getConnection drv tr = Resolved c ->
          let tr1 := tr ++ [EvGetConnection (Resolved c)] in
          let params := Some [js_of_option (env !! "MYSQL_DB"); js_of_option (penultimate segs)] in
          (exists r,
             snd (readResource env drv URL_parse request tr)
             = tr1 ++ EvExecute c COLUMNS_SQL params r :: EvRelease c
                 :: match r with
                    | Resolved _ => []
                    | Rejected e => [EvConsole Stderr READ_RESOURCE_LOG (Some e)]
                    end)
          /\ (forall rows, drv_execute drv tr1 c COLUMNS_SQL params = Resolved rows ->
                fst (readResource env drv URL_parse request tr)
                = Return (document (rr_uri request) (JSON.stringify rows)))
          /\ (drv_execute drv tr1 c COLUMNS_SQL params = Resolved [] ->
                fst (readResource env drv URL_parse request tr)
                = Return (document (rr_uri request) "[]")))).
Proof.
  split.
  - intros e He. unfold readResource, new_URL, try_catch.
    unfold mbind at 1. unfold M_bind at 1. by rewrite He.
  - intros u Hu segs. split.
    + intros Hlast. unfold readResource, new_URL, try_catch.
      unfold mbind at 1. unfold M_bind at 1. rewrite Hu.
      fold segs. rewrite (pop_last_removelast segs).
      rewrite (pop_last_removelast (removelast segs)).
      by rewrite bool_decide_eq_false_2 by done.
    + intros Hlast c Hc tr1 params.
      rewrite (readResource_query request u tr Hu Hlast). fold segs.
      change (Some [js_of_option (env !! "MYSQL_DB"); js_of_option (penultimate segs)])
        with (Some (column_params env segs)) in params.
      split; [|split].
      * unfold_calls. rewrite Hc. cbn. fold tr1.
        answer;
          match goal with H : drv_execute _ _ _ _ _ = ?v |- _ => exists v end;
          subst tr1; rewrite <- !app_assoc; reflexivity.
      * intros rows Hrows.
        by rewrite (executeQuery_resolved _ _ _ _ _ Hc Hrows).
      * intros Hrows.
        by rewrite (executeQuery_resolved _ _ _ _ _ Hc Hrows).
Qed.

(** C10.  The host of the URI is never read.  Two URIs whose paths end in
    the same table segment and schema leave the same trace (the same
    catalog query, filtered by the configured MYSQL_DB) and give the same
    document or the same error; the response only echoes the URI it was
    asked for. *)
Theorem readResource_ignores_database (uri1 uri2 : string) (u1 u2 : URL) (tr : Trace) :
  URL_parse uri1 = Resolved u1 ->
  URL_parse uri2 = Resolved u2 ->
  let segs1 := JsString.split (url_pathname u1) "/" in
  let segs2 := JsString.split (url_pathname u2) "/" in
  last segs1 = Some "schema" ->
  last segs2 = Some "schema" ->
  penultimate segs1 = penultimate segs2 ->
  let run1 := readResource env drv URL_parse {| rr_uri := uri1 |} tr in
  let run2 := readResource env drv URL_parse {| rr_uri := uri2 |} tr in
  snd run1 = snd run2
  /\ documents (fst run1) = documents (fst run2)
  /\ forall c, drv_getConnection drv tr = Resolved c ->
       exists r rest,
         snd run1
         = tr ++ EvGetConnection (Resolved c)
              :: EvExecute c COLUMNS_SQL
                   (Some [js_of_option (env !! "MYSQL_DB"); js_of_option (penultimate segs1)]) r
              :: rest.
Proof.
  intros H1 H2 segs1 segs2 Hl1 Hl2 Hpen run1 run2. subst run1 run2.
  rewrite (readResource_query {| rr_uri := uri1 |} u1 tr H1 Hl1).
  rewrite (readResource_query {| rr_uri := uri2 |} u2 tr H2 Hl2).
  fold segs1 segs2.
  assert (column_params env segs2 = column_params env segs1) as ->
    by (unfold column_params; by rewrite Hpen).
  split; [|split].
  - by destruct (executeQuery _ _ _ tr) as [[rows|e] tr'].
  - by destruct (executeQuery _ _ _ tr) as [[rows|e] tr'].
  - intros c Hc.
    destruct (executeQuery_statement COLUMNS_SQL (column_params env segs1) tr c Hc)
      as [r Hr].
    exists r. destruct (executeQuery _ _ _ tr) as [[rows|e] tr'];
      cbn [snd] in *; subst tr'; eexists; rewrite <- ?app_assoc; reflexivity.
Qed.

End ReadResource.

Example readResource_orders :
  readResource shop_env catalog simple_URL {| rr_uri := "mysql://shop/orders/schema" |} []
  = (Return (document "mysql://shop/orders/schema"
               (JSON.stringify
                  [ [("COLUMN_NAME", SqlText "id"); ("DATA_TYPE", SqlText "int")];
                    [("COLUMN_NAME", SqlText "total"); ("DATA_TYPE", SqlText "decimal")] ])),
     [ EvGetConnection (Resolved 7%nat);
       EvExecute 7%nat COLUMNS_SQL (Some [VString "shop"; VString "orders"])
         (Resolved
            [ [("COLUMN_NAME", SqlText "id"); ("DATA_TYPE", SqlText "int")];
              [("COLUMN_NAME", SqlText "total"); ("DATA_TYPE", SqlText "decimal")] ]);
       EvRelease 7%nat ]).
Proof. vm_compute. reflexivity. Qed.

Lemma readResource_last_segment_witness :
  readResource shop_env catalog simple_URL {| rr_uri := "mysql://shop/orders" |} []
  = (Throw (Error "Invalid resource URI"),
     [] ++ [EvConsole Stderr READ_RESOURCE_LOG (Some (Error "Invalid resource URI"))])
  /\ fst (readResource shop_env catalog simple_URL
            {| rr_uri := "mysql://shop/no_such_table/schema" |} [])
     = Return (document "mysql://shop/no_such_table/schema" "[]").
Proof.
  split.
  - refine (proj1 (proj2 (readResource_last_segment shop_env catalog simple_URL
                            {| rr_uri := "mysql://shop/orders" |} [])
                     _ eq_refl) _).
    vm_compute. discriminate.
  - refine (proj2 (proj2 (proj2 (proj2 (readResource_last_segment shop_env catalog simple_URL
                            {| rr_uri := "mysql://shop/no_such_table/schema" |} [])
                     _ eq_refl) _ 7%nat eq_refl)) _).
    + vm_compute. reflexivity.
    + vm_compute. reflexivity.
Defined.

Lemma readResource_ignores_database_witness :
  let run1 := readResource shop_env catalog simple_URL
                {| rr_uri := "mysql://shop/orders/schema" |} [] in
  let run2 := readResource shop_env catalog simple_URL
                {| rr_uri := "mysql://warehouse/orders/schema" |} [] in
  snd run1 = snd run2
  /\ documents (fst run1) = documents (fst run2)
  /\ forall c, drv_getConnection catalog [] = Resolved c ->
       exists r rest,
         snd run1
         = [] ++ EvGetConnection (Resolved c)
              :: EvExecute c COLUMNS_SQL
                   (Some [js_of_option (shop_env !! "MYSQL_DB");
                          js_of_option (penultimate (JsString.split "/orders/schema" "/"))]) r
              :: rest.
Proof.
  refine (readResource_ignores_database shop_env catalog simple_URL
            "mysql://shop/orders/schema" "mysql://warehouse/orders/schema"
            _ _ [] eq_refl eq_refl _ _ _);
    vm_compute; reflexivity.
Defined.

(* ===================================================================== *)
(** ** Start-up and shutdown *)
(* ===================================================================== *)

(** A variable that is not set is falsy. *)
Lemma truthy_missing (env : gmap string string) (key : string) :
  env !! key = None -> truthy (env !! key) = false.
Proof. by intros ->. Qed.

Lemma validate_configured env tr :
  configured env = true -> validate env tr = (Return tt, tr).
Proof.
  unfold configured, validate, MYSQL_USER, MYSQL_PASS, MYSQL_DB, MYSQL_SOCKET,
    MYSQL_HOST, MYSQL_PORT.
  destruct (truthy (env !! "MYSQL_USER")), (truthy (env !! "MYSQL_PASS")),
    (truthy (env !! "MYSQL_DB")), (truthy (env !! "MYSQL_SOCKET")),
    (truthy (env !! "MYSQL_HOST")), (truthy (env !! "MYSQL_PORT"));
    cbn; intros; done.
Qed.

(** C7.  When MYSQL_USER, MYSQL_PASS or MYSQL_DB is missing (or empty), or
    when there is neither MYSQL_SOCKET nor both MYSQL_HOST and MYSQL_PORT,
    the module throws with the trace untouched: no pool has been created
    and no connection asked for. *)
Theorem main_requires_configuration (env : gmap string string) (drv : Driver) (tr : Trace) :
  truthy (env !! "MYSQL_USER") = false
  \/ truthy (env !! "MYSQL_PASS") = false
  \/ truthy (env !! "MYSQL_DB") = false
  \/ (truthy (env !! "MYSQL_SOCKET") = false
      /\ (truthy (env !! "MYSQL_HOST") = false \/ truthy (env !! "MYSQL_PORT") = false)) ->
  exists message, main env drv tr = (Throw (Error message), tr).
Proof.
  unfold main, validate, MYSQL_USER, MYSQL_PASS, MYSQL_DB, MYSQL_SOCKET,
    MYSQL_HOST, MYSQL_PORT.
  destruct (truthy (env !! "MYSQL_USER")), (truthy (env !! "MYSQL_PASS")),
    (truthy (env !! "MYSQL_DB")), (truthy (env !! "MYSQL_SOCKET")),
    (truthy (env !! "MYSQL_HOST")), (truthy (env !! "MYSQL_PORT"));
    cbn; intros H; try (eexists; reflexivity);
    exfalso; intuition discriminate.
Qed.

Lemma main_requires_configuration_witness :
  exists message,
    main (delete "MYSQL_PASS" shop_env) healthy [] = (Throw (Error message), []).
Proof.
  apply (main_requires_configuration (delete "MYSQL_PASS" shop_env) healthy []).
  right. left. vm_compute. reflexivity.
Defined.

(** With a complete configuration the module goes on to create the pool,
    from the options the constructor computes. *)
Lemma main_creates_pool env drv tr :
  configured env = true ->
  exists r rest, main env drv tr = (r, tr ++ EvCreatePool (config env) :: rest).
Proof.
  intros Hok. unfold main. unfold mbind at 1. unfold M_bind at 1.
  rewrite (validate_configured env tr Hok).
  unfold constructor, run, console, try_catch, emit, await, mbind, M_bind.
  destruct (drv_connect drv _) as [[]|e]; do 2 eexists;
    rewrite <- !app_assoc; reflexivity.
Qed.

(** C9.  A non-empty MYSQL_SOCKET wins: the options carry the socket path
    and neither host nor port, whatever MYSQL_HOST and MYSQL_PORT are.
    In every case the options have one addressing mode: a socket path and
    no host or port, or a host and a port and no socket path; and with a
    configuration that passes the checks the host of the second mode is a
    non-empty string. *)
Theorem config_addressing (env : gmap string string) :
  (truthy (env !! "MYSQL_SOCKET") = true ->
   cfg_socketPath (config env) = env !! "MYSQL_SOCKET"
   /\ cfg_host (config env) = None
   /\ cfg_port (config env) = None)
  /\ ((is_Some (cfg_socketPath (config env))
       /\ cfg_host (config env) = None /\ cfg_port (config env) = None)
      \/ (cfg_socketPath (config env) = None
          /\ cfg_host (config env) = Some (env !! "MYSQL_HOST")
          /\ is_Some (cfg_port (config env))))
  /\ (configured env = true ->
      cfg_socketPath (config env) = None ->
      truthy (env !! "MYSQL_HOST") = true /\ truthy (env !! "MYSQL_PORT") = true).
Proof.
  unfold config, configured, MYSQL_SOCKET, MYSQL_HOST, MYSQL_PORT.
  split; [|split].
  - intros ->. by cbn.
  - destruct (env !! "MYSQL_SOCKET") as [[|a s]|] eqn:Hs; cbn.
    + right. eauto.
    + left. eauto.
    + right. eauto.
  - destruct (env !! "MYSQL_SOCKET") as [[|a s]|] eqn:Hs; cbn;
      intros Hok Hsock; try discriminate;
      destruct (truthy (env !! "MYSQL_USER")), (truthy (env !! "MYSQL_PASS")),
        (truthy (env !! "MYSQL_DB")), (truthy (env !! "MYSQL_HOST")),
        (truthy (env !! "MYSQL_PORT")); done.
Qed.

Lemma config_addressing_witness :
  cfg_socketPath (config mamp_env) = Some "/Applications/MAMP/tmp/mysql/mysql.sock"
  /\ cfg_host (config mamp_env) = None
  /\ cfg_port (config mamp_env) = None.
Proof.
  apply (proj1 (config_addressing mamp_env)). vm_compute. reflexivity.
Defined.

Example config_host_port :
  config shop_env
  = {| cfg_user := Some "root"; cfg_password := Some "secret";
       cfg_database := Some "shop"; cfg_connectionLimit := Some 10;
       cfg_socketPath := None; cfg_host := Some (Some "127.0.0.1");
       cfg_port := Some (Some 8889) |}.
Proof. vm_compute. reflexivity. Qed.

(** C8 (amended).  [shutdown] has no state of its own: every invocation
    writes its line and calls [pool.end()], once, whatever happened
    before. *)
Theorem shutdown_ends_pool_each_time (drv : Driver) (signal : string) (tr : Trace) :
  snd (shutdown drv signal tr)
  = tr ++ [ EvConsole Stdout ("Received " +:+ signal +:+ ". Shutting down...") None;
            EvPoolEnd (drv_end drv
                         (tr ++ [EvConsole Stdout
                                   ("Received " +:+ signal +:+ ". Shutting down...") None])) ]
  /\ pool_end_calls (snd (shutdown drv signal tr)) = S (pool_end_calls tr).
Proof.
  assert (snd (shutdown drv signal tr)
          = tr ++ [ EvConsole Stdout ("Received " +:+ signal +:+ ". Shutting down...") None;
                    EvPoolEnd (drv_end drv
                      (tr ++ [EvConsole Stdout
                                ("Received " +:+ signal +:+ ". Shutting down...") None])) ])
    as Hrun.
  { unfold shutdown, pool_end, console, emit, await, mbind, M_bind. cbn.
    by rewrite <- app_assoc. }
  split; [exact Hrun|].
  rewrite Hrun. unfold pool_end_calls. rewrite count_app. cbn. lia.
Qed.

(** C8 (as stated) fails: SIGINT followed by SIGTERM ends the pool twice,
    where a single signal ends it once. *)
Lemma shutdown_twice_ends_pool_twice :
  pool_end_calls (snd (shutdown healthy "SIGINT" [])) = 1%nat
  /\ pool_end_calls (snd ((shutdown healthy "SIGINT";; shutdown healthy "SIGTERM") []))
     = 2%nat
  /\ snd ((shutdown healthy "SIGINT";; shutdown healthy "SIGTERM") [])
     <> snd (shutdown healthy "SIGINT" []).
Proof. repeat split; try reflexivity. vm_compute. discriminate. Qed.

(* ===================================================================== *)
(** ** More on the two query paths *)
(* ===================================================================== *)

(** Splits [l = pre ++ ev :: post] for an explicit [l] in every way. *)
Ltac split_trace H pre :=
  rewrite <- ?app_assoc in H; cbn [app] in H;
  apply app_inv_head in H;
  repeat (destruct pre as [|? pre]; simplify_eq/=).

(** Picks from an explicit list the event rejected with [e]. *)
Ltac rejected_in l e :=
  lazymatch l with
  | ?x :: ?l' =>
      first [ let _ := constr:(eq_refl : rejection x = Some e) in exists x
            | rejected_in l' e ]
  end.

Section QueryPaths.

Variable drv : Driver.

(** X1.  [executeQuery] without a connection throws the pool's error and
    releases nothing.  With connection [c] it runs the statement once,
    releases [c] once, after the statement, whether the statement was
    accepted or rejected, and hands the statement's outcome on unchanged;
    it never opens or rolls back a transaction. *)
Theorem executeQuery_outcome (sql : string) (params : list JsValue) (tr : Trace) :
  (forall e, drv_getConnection drv tr = Rejected e ->
     executeQuery drv sql params tr = (Throw e, tr ++ [EvGetConnection (Rejected e)]))
  /\ (forall c, drv_getConnection drv tr = Resolved c ->
      let r := drv_execute drv (tr ++ [EvGetConnection (Resolved c)]) c sql (Some params) in
      executeQuery drv sql params tr
      = (settle r,
         tr ++ [EvGetConnection (Resolved c); EvExecute c sql (Some params) r; EvRelease c])).
Proof.
  split.
  - intros e He. unfold_calls. by rewrite He.
  - intros c Hc r. subst r. unfold_calls. rewrite Hc. cbn.
    answer; by rewrite <- !app_assoc.
Qed.

(** X2.  [executeReadOnlyQuery] returns only after the whole protocol went
    through: the value returned is the rows of the caller's statement, and
    the trace shows the switch to read-only, the transaction, the
    statement, one accepted rollback, the accepted switch back to
    read-write and the release, in this order and nothing else.  The
    session is read-write again when the connection is released. *)
Theorem executeReadOnlyQuery_return (sql : string) (tr tr' : Trace) (rows : Rows) :
  executeReadOnlyQuery drv sql tr = (Return rows, tr') ->
  exists c r1 r2,
    tr' = tr ++ [ EvGetConnection (Resolved c);
                  EvExecute c READ_ONLY None (Resolved r1);
                  EvBeginTransaction c (Resolved tt);
                  EvExecute c sql None (Resolved rows);
                  EvRollback c (Resolved tt);
                  EvExecute c READ_WRITE None (Resolved r2);
                  EvRelease c ]
    /\ forall mode, session_read_only c mode tr' = false.
Proof.
  unfold READ_ONLY, READ_WRITE. unfold_calls.
  answer; [|intros [=]].
  repeat answer; intros [= <- <-];
    repeat match goal with u : unit |- _ => destruct u end;
    do 3 eexists; (split; [rewrite <- !app_assoc; reflexivity|]);
    intros mode; rewrite !session_read_only_app; cbn;
    rewrite !bool_decide_eq_true_2 by done;
    by repeat case_bool_decide.
Qed.

(** X3.  The caller's statement is only ever sent inside the read-only
    transaction: wherever it occurs in the trace of a call, the switch to
    read-only and the begin of the transaction were accepted before it on
    the same connection, nothing was rolled back yet, and the session is
    read-only at that point. *)
Theorem executeReadOnlyQuery_statement_guarded (sql : string) (tr pre post : Trace)
    (c : ConnId) (r : Outcome Rows) (mode : bool) :
  sql <> READ_ONLY ->
  sql <> READ_WRITE ->
  snd (executeReadOnlyQuery drv sql tr) = tr ++ pre ++ EvExecute c sql None r :: post ->
  (exists r1, pre = [ EvGetConnection (Resolved c);
                      EvExecute c READ_ONLY None (Resolved r1);
                      EvBeginTransaction c (Resolved tt) ])
  /\ rollback_calls pre = 0%nat
  /\ session_read_only c mode (tr ++ pre) = true.
Proof.
  unfold READ_ONLY, READ_WRITE. intros Hro Hrw. unfold_calls.
  repeat answer; intros Heq; split_trace Heq pre;
    repeat match goal with u : unit |- _ => destruct u end;
    (split; [eexists; reflexivity|]); (split; [reflexivity|]);
    rewrite session_read_only_app; cbn;
    by rewrite !bool_decide_eq_true_2 by done.
Qed.

(** X4.  The adapter throws no error of its own on this path: what the call
    throws is the error of a rejected driver call of this very call.  When
    the rollback of the catch block is itself rejected, its error is the
    one thrown, in place of the error that led to the catch block. *)
Theorem executeReadOnlyQuery_thrown_error (sql : string) (tr tr' : Trace) (e : JsError) :
  executeReadOnlyQuery drv sql tr = (Throw e, tr') ->
  (exists evs ev, tr' = tr ++ evs /\ ev ∈ evs /\ rejection ev = Some e)
  /\ (forall pre c e', tr' = pre ++ [EvRollback c (Rejected e'); EvRelease c] -> e = e').
Proof.
  unfold_calls.
  repeat answer; intros [= <- <-]; (split;
    [ rewrite <- ?app_assoc; cbn [app];
      match goal with
      | |- exists evs ev, _ ++ ?l = _ /\ _ /\ _ = Some ?e =>
          exists l; rejected_in l e
      end;
      split; [reflexivity|]; split; [find_event | reflexivity]
    | intros pre c' e' Heq;
      change (pre ++ [EvRollback c' (Rejected e'); EvRelease c'])
        with (pre ++ [EvRollback c' (Rejected e')] ++ [EvRelease c']) in Heq;
      rewrite (app_assoc pre) in Heq;
      apply app_inj_tail in Heq as [Heq Hlast]; try discriminate Hlast;
      apply app_inj_tail in Heq as [_ Heq];
      by injection Heq ]).
Qed.

End QueryPaths.

Lemma executeQuery_outcome_witness :
  executeQuery catalog COLUMNS_SQL [VString "shop"; VString "no_such_table"] []
  = (Return [],
     [] ++ [ EvGetConnection (Resolved 7%nat);
             EvExecute 7%nat COLUMNS_SQL (Some [VString "shop"; VString "no_such_table"])
               (Resolved []);
             EvRelease 7%nat ]).
Proof.
  apply (proj2 (executeQuery_outcome catalog COLUMNS_SQL
                  [VString "shop"; VString "no_such_table"] []) 7%nat).
  reflexivity.
Defined.

Lemma executeReadOnlyQuery_return_witness :
  exists c r1 r2,
    snd (executeReadOnlyQuery healthy "SELECT 1 AS x" [])
    = [] ++ [ EvGetConnection (Resolved c);
              EvExecute c READ_ONLY None (Resolved r1);
              EvBeginTransaction c (Resolved tt);
              EvExecute c "SELECT 1 AS x" None (Resolved [[("x", SqlInt 1)]]);
              EvRollback c (Resolved tt);
              EvExecute c READ_WRITE None (Resolved r2);
              EvRelease c ]
    /\ forall mode,
         session_read_only c mode (snd (executeReadOnlyQuery healthy "SELECT 1 AS x" []))
         = false.
Proof.
  apply (executeReadOnlyQuery_return healthy "SELECT 1 AS x" []).
  reflexivity.
Defined.

Lemma executeReadOnlyQuery_statement_guarded_witness :
  (exists r1, [ EvGetConnection (Resolved 7%nat);
                EvExecute 7%nat READ_ONLY None (Resolved []);
                EvBeginTransaction 7%nat (Resolved tt) ]
              = [ EvGetConnection (Resolved 7%nat);
                  EvExecute 7%nat READ_ONLY None (Resolved r1);
                  EvBeginTransaction 7%nat (Resolved tt) ])
  /\ rollback_calls [ EvGetConnection (Resolved 7%nat);
                      EvExecute 7%nat READ_ONLY None (Resolved []);
                      EvBeginTransaction 7%nat (Resolved tt) ] = 0%nat
  /\ session_read_only 7%nat false
       ([] ++ [ EvGetConnection (Resolved 7%nat);
                EvExecute 7%nat READ_ONLY None (Resolved []);
                EvBeginTransaction 7%nat (Resolved tt) ]) = true.
Proof.
  apply (executeReadOnlyQuery_statement_guarded no_such_table
           "SELECT * FROM nonexistent_table" []
           [ EvGetConnection (Resolved 7%nat);
             EvExecute 7%nat READ_ONLY None (Resolved []);
             EvBeginTransaction 7%nat (Resolved tt) ]
           [ EvRollback 7%nat (Resolved tt); EvRelease 7%nat ]
           7%nat (Rejected no_table) false).
  - discriminate.
  - discriminate.
  - reflexivity.
Defined.

Lemma executeReadOnlyQuery_thrown_error_witness :
  (exists evs ev,
     snd (executeReadOnlyQuery (broken "SELECT * FROM nonexistent_table")
            "SELECT * FROM nonexistent_table" [])
     = [] ++ evs
     /\ ev ∈ evs
     /\ rejection ev
        = Some (Error "Can't add new command when connection is in closed state"))
  /\ Error "Can't add new command when connection is in closed state"
     = Error "Can't add new command when connection is in closed state".
Proof.
  destruct (executeReadOnlyQuery_thrown_error
              (broken "SELECT * FROM nonexistent_table")
              "SELECT * FROM nonexistent_table" [] _ _ eq_refl) as [Hfrom Hmask].
  split; [exact Hfrom|].
  exact (Hmask [ EvGetConnection (Resolved 7%nat);
                 EvExecute 7%nat READ_ONLY None (Resolved []);
                 EvBeginTransaction 7%nat (Resolved tt);
                 EvExecute 7%nat "SELECT * FROM nonexistent_table" None (Rejected no_table) ]
           7%nat _ eq_refl).
Defined.

(** The statement's own error is masked on that database. *)
Example executeReadOnlyQuery_masked_error :
  fst (executeReadOnlyQuery (broken "SELECT * FROM nonexistent_table")
         "SELECT * FROM nonexistent_table" [])
  = Throw (Error "Can't add new command when connection is in closed state").
Proof. reflexivity. Qed.

(* ===================================================================== *)
(** ** More on the handlers *)
(* ===================================================================== *)

Section Handlers.

Variable env : gmap string string.
Variable drv : Driver.
Variable URL_parse : string -> Outcome URL.

(** X5.  Past the gates, a response without the error flag and a return
    of the read-only path are the same thing: the response then holds the
    JSON text of the statement's rows, and the statement sent is the
    [sql] argument as given, untrimmed. *)
Theorem callTool_success (args : gmap string JsValue) (sql : string) (tr tr' : Trace)
    (res : CallToolResult) :
  args !! "sql" = Some (VString sql) ->
  is_select sql = true ->
  callTool drv {| ct_name := "mysql_query"; ct_arguments := Some args |} tr
  = (Return res, tr') ->
  (isError res = None <->
   exists rows, executeReadOnlyQuery drv sql tr = (Return rows, tr')
                /\ res = {| content := [ {| tc_type := "text";
                                            tc_text := JSON.stringify rows |} ];
                            isError := None |}).
Proof.
  intros Hsql Hgate. rewrite (callTool_past_gates drv args sql tr Hsql Hgate).
  destruct (executeReadOnlyQuery drv sql tr) as [[rows|e] tr1];
    intros [= <- <-]; split.
  - intros _. by exists rows.
  - done.
  - discriminate.
  - intros (rows & [=] & _).
Qed.

(** X7.  The listing has one resource per row of the table query, in row
    order, each with the URI mysql://DB/TABLE/schema, the JSON media type
    and the quoted table name; a database without tables gives the empty
    listing, not an error.  The query is filtered by MYSQL_DB. *)
Theorem listResources_rows (tr : Trace) (c : ConnId) (rows : Rows) :
  drv_getConnection drv tr = Resolved c ->
  drv_execute drv (tr ++ [EvGetConnection (Resolved c)]) c TABLES_SQL
    (Some [js_of_option (env !! "MYSQL_DB")]) = Resolved rows ->
  exists res,
    listResources env drv tr
    = (Return res,
       tr ++ [ EvGetConnection (Resolved c);
               EvExecute c TABLES_SQL (Some [js_of_option (env !! "MYSQL_DB")]) (Resolved rows);
               EvRelease c;
               EvConsole Stdout "Query results:" None ])
    /\ length (resources res) = length rows
    /\ (rows = [] -> resources res = [])
    /\ (forall i row, rows !! i = Some row ->
          resources res !! i
          = Some {| res_uri := table_uri (template_of_env (env !! "MYSQL_DB")) (table_of row);
                    res_mimeType := "application/json";
                    res_name := String "034" (table_of row)
                                +:+ String "034" " database schema" |}).
Proof.
  intros Hc Hq. eexists. split; [|split; [|split]].
  - unfold listResources, TABLES_SQL, MYSQL_DB in *. unfold_calls.
    rewrite Hc. cbn. rewrite Hq. cbn. rewrite <- !app_assoc. reflexivity.
  - cbn [resources]. by rewrite length_fmap.
  - by intros ->.
  - intros i row Hrow. cbn [resources]. rewrite list_lookup_fmap.
    unfold Rows in *. by rewrite Hrow.
Qed.

(** X8.  A failure of the table query is logged to the error stream and
    thrown on unchanged: without a connection nothing is released, and a
    rejected statement is thrown after its connection was released. *)
Theorem listResources_failure (tr : Trace) :
  (forall e, drv_getConnection drv tr = Rejected e ->
     listResources env drv tr
     = (Throw e, tr ++ [ EvGetConnection (Rejected e);
                         EvConsole Stderr LIST_RESOURCES_LOG (Some e) ]))
  /\ (forall c e, drv_getConnection drv tr = Resolved c ->
        drv_execute drv (tr ++ [EvGetConnection (Resolved c)]) c TABLES_SQL
          (Some [js_of_option (env !! "MYSQL_DB")]) = Rejected e ->
        listResources env drv tr
        = (Throw e, tr ++ [ EvGetConnection (Resolved c);
                            EvExecute c TABLES_SQL (Some [js_of_option (env !! "MYSQL_DB")])
                              (Rejected e);
                            EvRelease c;
                            EvConsole Stderr LIST_RESOURCES_LOG (Some e) ])).
Proof.
  split.
  - intros e He. unfold listResources. unfold_calls. rewrite He. cbn.
    by rewrite <- !app_assoc.
  - intros c e Hc Hq. unfold listResources, TABLES_SQL, MYSQL_DB in *. unfold_calls.
    rewrite Hc. cbn. rewrite Hq. cbn. by rewrite <- !app_assoc.
Qed.

(** X15.  The same for the column query of the read-resource handler: its
    failure is logged and thrown on unchanged, after the release of the
    connection if there was one. *)
Theorem readResource_failure (request : ReadResourceRequest) (u : URL) (tr : Trace) :
  URL_parse (rr_uri request) = Resolved u ->
  last (JsString.split (url_pathname u) "/") = Some "schema" ->
  let params := Some (column_params env (JsString.split (url_pathname u) "/")) in
  (forall e, drv_getConnection drv tr = Rejected e ->
     readResource env drv URL_parse request tr
     = (Throw e, tr ++ [ EvGetConnection (Rejected e);
                         EvConsole Stderr READ_RESOURCE_LOG (Some e) ]))
  /\ (forall c e, drv_getConnection drv tr = Resolved c ->
        drv_execute drv (tr ++ [EvGetConnection (Resolved c)]) c COLUMNS_SQL params
        = Rejected e ->
        readResource env drv URL_parse request tr
        = (Throw e, tr ++ [ EvGetConnection (Resolved c);
                            EvExecute c COLUMNS_SQL params (Rejected e);
                            EvRelease c;
                            EvConsole Stderr READ_RESOURCE_LOG (Some e) ])).
Proof.
  intros Hu Hlast params. subst params.
  rewrite (readResource_query env drv URL_parse request u tr Hu Hlast). split.
  - intros e He. unfold_calls. rewrite He. cbn. by rewrite <- !app_assoc.
  - intros c e Hc Hq. unfold_calls. rewrite Hc. cbn. rewrite Hq. cbn.
    by rewrite <- !app_assoc.
Qed.

End Handlers.

Lemma callTool_success_witness :
  exists rows,
    executeReadOnlyQuery healthy "SELECT 1 AS x" []
    = (Return rows, snd (executeReadOnlyQuery healthy "SELECT 1 AS x" []))
    /\ {| content := [ {| tc_type := "text";
                          tc_text := JSON.stringify [[("x", SqlInt 1)]] |} ];
          isError := None |}
       = {| content := [ {| tc_type := "text"; tc_text := JSON.stringify rows |} ];
            isError := None |}.
Proof.
  apply (proj1 (callTool_success healthy (sql_args "SELECT 1 AS x") "SELECT 1 AS x" []
                  (snd (executeReadOnlyQuery healthy "SELECT 1 AS x" []))
                  {| content := [ {| tc_type := "text";
                                     tc_text := JSON.stringify [[("x", SqlInt 1)]] |} ];
                     isError := None |}
                  eq_refl eq_refl eq_refl)).
  reflexivity.
Defined.

Lemma listResources_rows_witness :
  exists res,
    listResources shop_env shop []
    = (Return res,
       [] ++ [ EvGetConnection (Resolved 7%nat);
               EvExecute 7%nat TABLES_SQL (Some [js_of_option (shop_env !! "MYSQL_DB")])
                 (Resolved [ [("TABLE_NAME", SqlText "orders")];
                             [("TABLE_NAME", SqlText "items")] ]);
               EvRelease 7%nat;
               EvConsole Stdout "Query results:" None ])
    /\ length (resources res) = 2%nat
    /\ resources res !! 1%nat
       = Some {| res_uri := "mysql://shop/items/schema";
                 res_mimeType := "application/json";
                 res_name := String "034" "items" +:+ String "034" " database schema" |}.
Proof.
  destruct (listResources_rows shop_env shop [] 7%nat
              [ [("TABLE_NAME", SqlText "orders")]; [("TABLE_NAME", SqlText "items")] ]
              eq_refl eq_refl) as (res & Hrun & Hlen & _ & Hrow).
  exists res. split; [exact Hrun|]. split; [exact Hlen|].
  exact (Hrow 1%nat [("TABLE_NAME", SqlText "items")] eq_refl).
Defined.

Lemma listResources_failure_witness :
  listResources shop_env no_catalog []
  = (Throw (Error "SELECT command denied to user"),
     [] ++ [ EvGetConnection (Resolved 7%nat);
             EvExecute 7%nat TABLES_SQL (Some [js_of_option (shop_env !! "MYSQL_DB")])
               (Rejected (Error "SELECT command denied to user"));
             EvRelease 7%nat;
             EvConsole Stderr LIST_RESOURCES_LOG (Some (Error "SELECT command denied to user")) ]).
Proof.
  apply (proj2 (listResources_failure shop_env no_catalog []) 7%nat); reflexivity.
Defined.

Lemma readResource_failure_witness :
  readResource shop_env no_columns simple_URL {| rr_uri := "mysql://shop/orders/schema" |} []
  = (Throw (Error "SELECT command denied to user"),
     [] ++ [ EvGetConnection (Resolved 7%nat);
             EvExecute 7%nat COLUMNS_SQL
               (Some (column_params shop_env (JsString.split "/orders/schema" "/")))
               (Rejected (Error "SELECT command denied to user"));
             EvRelease 7%nat;
             EvConsole Stderr READ_RESOURCE_LOG (Some (Error "SELECT command denied to user")) ]).
Proof.
  refine (proj2 (readResource_failure shop_env no_columns simple_URL
                   {| rr_uri := "mysql://shop/orders/schema" |} _ [] eq_refl _)
            7%nat _ eq_refl _).
  - reflexivity.
  - reflexivity.
Defined.

(* ===================================================================== *)
(** ** Listing and reading agree *)
(* ===================================================================== *)

Lemma rev_app_rev_app (a b c : string) :
  String.rev_app (String.rev_app a b) c = String.rev_app b (a +:+ c).
Proof.
  revert b c. induction a as [|x a IH]; intros b c; [done|].
  cbn [String.rev_app]. rewrite IH. reflexivity.
Qed.

Lemma string_rev_involutive (s : string) : String.rev (String.rev s) = s.
Proof.
  unfold String.rev. rewrite rev_app_rev_app. cbn [String.rev_app].
  apply string_app_empty_r.
Qed.

(** A stretch without the separator is collected into the current
    segment. *)
Lemma split_go_segment (sep : ascii) (t cur rest : string) :
  has_char sep t = false ->
  JsString.split_go sep cur (t +:+ rest)
  = JsString.split_go sep (String.rev_app t cur) rest.
Proof.
  revert cur. induction t as [|c t IH]; intros cur Hno; [done|].
  cbn [has_char] in Hno. apply orb_false_iff in Hno as [Hc Ht].
  change (String c t +:+ rest) with (String c (t +:+ rest)).
  cbn [JsString.split_go String.rev_app]. rewrite Hc. by apply IH.
Qed.

(** The path of a listed URI splits into the empty segment, the table and
    schema. *)
Lemma split_table_path (table : string) :
  has_char "/" table = false ->
  JsString.split ("/" +:+ table +:+ "/schema") "/" = [EmptyString; table; "schema"].
Proof.
  intros Hno. unfold JsString.split.
  change ("/" +:+ table +:+ "/schema") with (String "/" (table +:+ "/schema")).
  cbn [JsString.split_go]. rewrite Ascii.eqb_refl. f_equal.
  rewrite (split_go_segment "/" table EmptyString "/schema" Hno).
  change "/schema" with (String "/" "schema").
  cbn [JsString.split_go]. rewrite Ascii.eqb_refl.
  fold (String.rev table). by rewrite string_rev_involutive.
Qed.

Section RoundTrip.

Variable env : gmap string string.
Variable drv : Driver.
Variable URL_parse : string -> Outcome URL.

(** X9.  Reading a listed URI asks for the listed table.  For a table
    whose name has no slash, when the platform parses the URI of the
    listing to the path /TABLE/schema, the read-resource handler passes
    the check of the last segment and runs the column query for exactly
    that table in the configured database; what it answers is the
    outcome of that query. *)
Theorem readResource_listed_uri (table : string) (u : URL) (tr : Trace) (c : ConnId) :
  let uri := table_uri (template_of_env (env !! "MYSQL_DB")) table in
  has_char "/" table = false ->
  URL_parse uri = Resolved u ->
  url_pathname u = "/" +:+ table +:+ "/schema" ->
  drv_getConnection drv tr = Resolved c ->
  let params := Some [js_of_option (env !! "MYSQL_DB"); VString table] in
  let r := drv_execute drv (tr ++ [EvGetConnection (Resolved c)]) c COLUMNS_SQL params in
  readResource env drv URL_parse {| rr_uri := uri |} tr
  = match r with
    | Resolved rows =>
        (Return (document uri (JSON.stringify rows)),
         tr ++ [EvGetConnection (Resolved c); EvExecute c COLUMNS_SQL params r; EvRelease c])
    | Rejected e =>
        (Throw e,
         tr ++ [EvGetConnection (Resolved c); EvExecute c COLUMNS_SQL params r; EvRelease c;
                EvConsole Stderr READ_RESOURCE_LOG (Some e)])
    end.
Proof.
  intros uri Hno Hu Hpath Hc params r.
  assert (JsString.split (url_pathname u) "/" = [EmptyString; table; "schema"]) as Hsplit
    by (rewrite Hpath; by apply split_table_path).
  rewrite (readResource_query env drv URL_parse {| rr_uri := uri |} u tr Hu)
    by (by rewrite Hsplit).
  rewrite Hsplit. unfold column_params, penultimate. cbn [removelast last js_of_option].
  subst r params. unfold_calls. rewrite Hc. cbn.
  answer; by rewrite <- !app_assoc.
Qed.

(** X11.  The listing and the template agree: the advertised URI template
    is mysql://DB/{table}/schema, and the URI listed for a row is that
    template with the table name of the row in the place of {table}; the
    listed resource carries the media type of the template. *)
Theorem listResources_instantiates_template (tr tr0 : Trace) (c : ConnId) (rows : Rows) :
  drv_getConnection drv tr = Resolved c ->
  drv_execute drv (tr ++ [EvGetConnection (Resolved c)]) c TABLES_SQL
    (Some [js_of_option (env !! "MYSQL_DB")]) = Resolved rows ->
  let prefix := "mysql://" +:+ template_of_env (env !! "MYSQL_DB") +:+ "/" in
  let suffix := "/schema" in
  exists res tr' t,
    listResources env drv tr = (Return res, tr')
    /\ listResourceTemplates env tr0 = (Return {| resourceTemplates := [t] |}, tr0)
    /\ rt_uriTemplate t = prefix +:+ "{table}" +:+ suffix
    /\ length (resources res) = length rows
    /\ forall i row, rows !! i = Some row ->
         exists r, resources res !! i = Some r
                   /\ res_uri r = prefix +:+ table_of row +:+ suffix
                   /\ res_mimeType r = rt_mimeType t.
Proof.
  intros Hc Hq prefix suffix. subst prefix suffix.
  do 3 eexists. split; [|split; [|split; [|split]]].
  - unfold listResources, TABLES_SQL, MYSQL_DB in *. unfold_calls.
    rewrite Hc. cbn. rewrite Hq. cbn. reflexivity.
  - reflexivity.
  - cbn [rt_uriTemplate]. unfold MYSQL_DB. by rewrite !string_app_assoc.
  - cbn [resources]. by rewrite length_fmap.
  - intros i row Hrow. cbn [resources]. rewrite list_lookup_fmap.
    unfold Rows in *. rewrite Hrow. eexists. split; [reflexivity|].
    cbn [res_uri res_mimeType rt_mimeType]. unfold table_of.
    split; [by rewrite !string_app_assoc | reflexivity].
Qed.

(** X10.  The tool listing and the tool handler agree: a tool name is
    advertised exactly when a call under that name is not refused as
    MethodNotFound.  The listing itself has no effect. *)
Theorem listTools_names_are_callable (request : CallToolRequest) (tr tr0 : Trace) :
  exists res,
    listTools tr0 = (Return res, tr0)
    /\ (ct_name request ∈ tool_name <$> tools res
        <-> ~ is_fault MethodNotFound (fst (callTool drv request tr))).
Proof.
  eexists. split; [reflexivity|]. cbn [tools fmap list_fmap tool_name].
  destruct request as [name args]. cbn [ct_name].
  destruct (decide (name = "mysql_query")) as [->|Hne].
  - split; [|intros _; by apply list_elem_of_singleton].
    intros _ (e & Hthrow & Hcode). revert Hthrow.
    unfold callTool. cbn [ct_name ct_arguments].
    rewrite bool_decide_eq_true_2 by done.
    unfold try_catch, throw, mbind, M_bind, mret, M_ret. cbn [negb].
    destruct args as [a|]; [|by intros [= <-]].
    case_bool_decide; cbn [negb]; [|by intros [= <-]].
    destruct (JsString.startsWith _ _); cbn [negb]; [|by intros [= <-]].
    by destruct (executeReadOnlyQuery _ _ _) as [[rows|e'] tr'].
  - split.
    + intros Hin%list_elem_of_singleton. done.
    + intros Hnot. destruct Hnot.
      exists (McpError MethodNotFound ("Unknown tool: " +:+ name)). split; [|reflexivity].
      unfold callTool. cbn [ct_name].
      rewrite bool_decide_eq_false_2 by done. reflexivity.
Qed.

End RoundTrip.

Lemma readResource_listed_uri_witness :
  readResource shop_env catalog simple_URL {| rr_uri := table_uri "shop" "orders" |} []
  = (Return (document (table_uri "shop" "orders")
               (JSON.stringify
                  [ [("COLUMN_NAME", SqlText "id"); ("DATA_TYPE", SqlText "int")];
                    [("COLUMN_NAME", SqlText "total"); ("DATA_TYPE", SqlText "decimal")] ])),
     [] ++ [ EvGetConnection (Resolved 7%nat);
             EvExecute 7%nat COLUMNS_SQL (Some [VString "shop"; VString "orders"])
               (Resolved
                  [ [("COLUMN_NAME", SqlText "id"); ("DATA_TYPE", SqlText "int")];
                    [("COLUMN_NAME", SqlText "total"); ("DATA_TYPE", SqlText "decimal")] ]);
             EvRelease 7%nat ]).
Proof.
  refine (readResource_listed_uri shop_env catalog simple_URL "orders" _ [] 7%nat
            eq_refl eq_refl _ eq_refl).
  reflexivity.
Defined.

Lemma listResources_instantiates_template_witness :
  exists res tr' t,
    listResources shop_env shop [] = (Return res, tr')
    /\ listResourceTemplates shop_env [] = (Return {| resourceTemplates := [t] |}, [])
    /\ rt_uriTemplate t = "mysql://shop/{table}/schema"
    /\ exists r, resources res !! 1%nat = Some r
                 /\ res_uri r = "mysql://shop/items/schema"
                 /\ res_mimeType r = rt_mimeType t.
Proof.
  destruct (listResources_instantiates_template shop_env shop [] [] 7%nat
              [ [("TABLE_NAME", SqlText "orders")]; [("TABLE_NAME", SqlText "items")] ]
              eq_refl eq_refl)
    as (res & tr' & t & Hrun & Htpl & Huri & _ & Hrows).
  exists res, tr', t. split; [exact Hrun|]. split; [exact Htpl|].
  split; [exact Huri|].
  exact (Hrows 1%nat [("TABLE_NAME", SqlText "items")] eq_refl).
Defined.

(* ===================================================================== *)
(** ** More on start-up and shutdown *)
(* ===================================================================== *)

(** X12.  A signal handler leaves the process with code 0 only after
    [pool.end()] was accepted; when [pool.end()] is rejected the handler
    throws that error and [process.exit] is not reached. *)
Theorem on_signal_exit (drv : Driver) (signal : string) (tr : Trace) :
  let tr1 := tr ++ [EvConsole Stdout ("Received " +:+ signal +:+ ". Shutting down...") None] in
  (drv_end drv tr1 = Resolved tt ->
   on_signal drv signal tr = (Return tt, tr1 ++ [EvPoolEnd (Resolved tt); EvExit 0]))
  /\ (forall e, drv_end drv tr1 = Rejected e ->
        on_signal drv signal tr = (Throw e, tr1 ++ [EvPoolEnd (Rejected e)])).
Proof.
  intros tr1. subst tr1. split.
  - intros Hend. unfold on_signal, shutdown. unfold_calls. cbn.
    rewrite Hend. cbn. by rewrite <- !app_assoc.
  - intros e Hend. unfold on_signal, shutdown. unfold_calls. cbn.
    by rewrite Hend.
Qed.

Lemma on_signal_exit_witness :
  on_signal healthy "SIGTERM" []
  = (Return tt,
     ([] ++ [EvConsole Stdout ("Received " +:+ "SIGTERM" +:+ ". Shutting down...") None])
     ++ [EvPoolEnd (Resolved tt); EvExit 0])
  /\ on_signal stuck_pool "SIGINT" []
     = (Throw (Error "Pool is closed."),
        ([] ++ [EvConsole Stdout ("Received " +:+ "SIGINT" +:+ ". Shutting down...") None])
        ++ [EvPoolEnd (Rejected (Error "Pool is closed."))]).
Proof.
  split.
  - apply (proj1 (on_signal_exit healthy "SIGTERM" [])). reflexivity.
  - apply (proj2 (on_signal_exit stuck_pool "SIGINT" [])). reflexivity.
Defined.

(** X13.  Start-up throws exactly when the configuration is incomplete.
    With a complete one the module never throws: it creates the pool once,
    from the options of the constructor, connects the transport and writes
    one line; a transport that fails to connect is only logged.  No
    connection is taken from the pool and no statement is sent. *)
Theorem main_outcome (env : gmap string string) (drv : Driver) (tr : Trace) :
  (configured env = true ->
   let r := drv_connect drv (tr ++ [EvCreatePool (config env)]) in
   main env drv tr
   = (Return tt, tr ++ [EvCreatePool (config env); EvTransportConnect r; startup_log r]))
  /\ (configured env = false -> exists message, main env drv tr = (Throw (Error message), tr)).
Proof.
  split.
  - intros Hok r. subst r. unfold main. unfold mbind at 1. unfold M_bind at 1.
    rewrite (validate_configured env tr Hok).
    unfold constructor, run, console, try_catch, emit, await, mbind, M_bind.
    destruct (drv_connect drv _) as [[]|e]; cbn; by rewrite <- !app_assoc.
  - unfold configured, main, validate, MYSQL_USER, MYSQL_PASS, MYSQL_DB, MYSQL_SOCKET,
      MYSQL_HOST, MYSQL_PORT.
    destruct (truthy (env !! "MYSQL_USER")), (truthy (env !! "MYSQL_PASS")),
      (truthy (env !! "MYSQL_DB")), (truthy (env !! "MYSQL_SOCKET")),
      (truthy (env !! "MYSQL_HOST")), (truthy (env !! "MYSQL_PORT"));
      cbn; intros H; try discriminate H; eexists; reflexivity.
Qed.

Lemma main_outcome_witness :
  main shop_env healthy []
  = (Return tt,
     [] ++ [ EvCreatePool (config shop_env); EvTransportConnect (Resolved tt);
             EvConsole Stderr "MAMP MySQL MCP server running on stdio" None ]).
Proof.
  apply (proj1 (main_outcome shop_env healthy [])). vm_compute. reflexivity.
Defined.

(** X14.  The credentials go into the pool options as they are.  The
    connection limit is MYSQL_POOL_LIMIT read as a decimal number, and 10
    when the variable is not set; a variable that is set but holds no
    number (the empty string included) gives NaN, not 10.  In host mode
    the port is MYSQL_PORT read the same way. *)
Theorem config_limit_and_credentials (env : gmap string string) :
  cfg_user (config env) = env !! "MYSQL_USER"
  /\ cfg_password (config env) = env !! "MYSQL_PASS"
  /\ cfg_database (config env) = env !! "MYSQL_DB"
  /\ (env !! "MYSQL_POOL_LIMIT" = None -> cfg_connectionLimit (config env) = Some 10)
  /\ (forall s, env !! "MYSQL_POOL_LIMIT" = Some s ->
        cfg_connectionLimit (config env) = ParseInt.parseInt s)
  /\ (env !! "MYSQL_POOL_LIMIT" = Some EmptyString -> cfg_connectionLimit (config env) = None)
  /\ (forall s, truthy (env !! "MYSQL_SOCKET") = false -> env !! "MYSQL_PORT" = Some s ->
        cfg_port (config env) = Some (ParseInt.parseInt s)).
Proof.
  unfold config, MYSQL_USER, MYSQL_PASS, MYSQL_DB, MYSQL_SOCKET, MYSQL_POOL_LIMIT,
    MYSQL_PORT.
  repeat split.
  - by destruct (truthy _).
  - by destruct (truthy _).
  - by destruct (truthy _).
  - intros ->. by destruct (truthy _).
  - intros s ->. by destruct (truthy _).
  - intros ->. by destruct (truthy _).
  - intros s -> ->. reflexivity.
Qed.

Lemma config_limit_and_credentials_witness :
  cfg_connectionLimit (config shop_env) = Some 10
  /\ cfg_connectionLimit (config (<["MYSQL_POOL_LIMIT" := "25 connections"]> shop_env))
     = Some 25
  /\ cfg_connectionLimit (config (<["MYSQL_POOL_LIMIT" := EmptyString]> shop_env)) = None.
Proof.
  split; [|split].
  - apply (proj1 (proj2 (proj2 (proj2 (config_limit_and_credentials shop_env))))).
    vm_compute. reflexivity.
  - etrans.
    + apply (proj1 (proj2 (proj2 (proj2 (proj2
               (config_limit_and_credentials
                  (<["MYSQL_POOL_LIMIT" := "25 connections"]> shop_env))))))
               "25 connections").
      vm_compute. reflexivity.
    + reflexivity.
  - apply (proj1 (proj2 (proj2 (proj2 (proj2 (proj2
               (config_limit_and_credentials
                  (<["MYSQL_POOL_LIMIT" := EmptyString]> shop_env)))))))).
    vm_compute. reflexivity.
Defined.

(* ===================================================================== *)
(** ** The prefix check *)
(* ===================================================================== *)

Ltac each_ascii c := destruct c as [[] [] [] [] [] [] [] []].

Lemma ws2_not_plain a b :
  JsString.ws2 a b = true -> plain a = false /\ plain b = false.
Proof.
  each_ascii a; try (intros H; discriminate H);
    each_ascii b; try (intros H; discriminate H); by intros _.
Qed.

Lemma ws3_not_plain a b c :
  JsString.ws3 a b c = true -> plain a = false /\ plain b = false /\ plain c = false.
Proof.
  each_ascii a; try (intros H; discriminate H);
    each_ascii b; try (intros H; discriminate H);
    each_ascii c; try (intros H; discriminate H); by intros _.
Qed.

Lemma plain_not_ws1 c : plain c = true -> JsString.ws1 c = false.
Proof. unfold plain. intros [_ H]%andb_true_iff. by apply negb_true_iff. Qed.

Lemma lower_ascii_plain c : plain (JsString.lower_ascii c) = true -> plain c = true.
Proof. each_ascii c; vm_compute; done. Qed.

Lemma ws2_plain_l a b : plain a = true -> JsString.ws2 a b = false.
Proof.
  intros Ha. destruct (JsString.ws2 a b) eqn:H; [|done].
  apply ws2_not_plain in H as [H _]. congruence.
Qed.

Lemma ws2_plain_r a b : plain b = true -> JsString.ws2 a b = false.
Proof.
  intros Hb. destruct (JsString.ws2 a b) eqn:H; [|done].
  apply ws2_not_plain in H as [_ H]. congruence.
Qed.

Lemma ws3_plain a b c :
  plain a = true \/ plain b = true \/ plain c = true -> JsString.ws3 a b c = false.
Proof.
  intros Hp. destruct (JsString.ws3 a b c) eqn:H; [|done].
  apply ws3_not_plain in H as (Ha & Hb & Hc).
  destruct Hp as [?|[?|?]]; congruence.
Qed.

(** [strip] stops at a plain character. *)
Lemma strip_plain_head fwd c s :
  plain c = true -> JsString.strip fwd (String c s) = String c s.
Proof.
  intros Hc. cbn [JsString.strip]. rewrite (plain_not_ws1 c Hc).
  destruct s as [|b s]; [done|].
  rewrite (ws2_plain_l c b Hc), (ws2_plain_r b c Hc). destruct fwd.
  - destruct s as [|d s]; [done|]. by rewrite ws3_plain by auto.
  - destruct s as [|d s]; [done|]. by rewrite ws3_plain by auto.
Qed.

(** [strip] never removes a plain character, nor anything behind it. *)
Lemma strip_plain_barrier fwd c rest :
  plain c = true ->
  forall n x, (String.length x <= n)%nat ->
    exists x', JsString.strip fwd (x +:+ String c rest) = x' +:+ String c rest.
Proof.
  intros Hc. induction n as [|n IH]; intros x Hlen.
  { destruct x; [|cbn in Hlen; lia]. exists EmptyString.
    by apply strip_plain_head. }
  destruct x as [|a x].
  { exists EmptyString. by apply strip_plain_head. }
  cbn [String.length] in Hlen.
  change (String a x +:+ String c rest) with (String a (x +:+ String c rest)).
  cbn [JsString.strip]. destruct (JsString.ws1 a).
  { apply IH. lia. }
  destruct x as [|b x].
  { change (EmptyString +:+ String c rest) with (String c rest). cbv beta iota.
    rewrite (ws2_plain_r a c Hc), (ws2_plain_l c a Hc).
    exists (String a EmptyString).
    destruct fwd; destruct rest as [|d rest]; try done;
      by rewrite ws3_plain by auto. }
  cbn [String.length] in Hlen.
  change (String b x +:+ String c rest) with (String b (x +:+ String c rest)).
  cbv beta iota.
  destruct (if fwd then JsString.ws2 a b else JsString.ws2 b a).
  { apply IH. lia. }
  destruct x as [|d x].
  { change (EmptyString +:+ String c rest) with (String c rest). cbv beta iota.
    exists (String a (String b EmptyString)).
    destruct fwd; by rewrite ws3_plain by auto. }
  cbn [String.length] in Hlen.
  change (String d x +:+ String c rest) with (String d (x +:+ String c rest)).
  cbv beta iota.
  destruct (if fwd then JsString.ws3 a b d else JsString.ws3 d b a).
  { apply IH. lia. }
  by exists (String a (String b (String d x))).
Qed.

Lemma strip_ws1_prefix fwd w s :
  all_ws1 w = true -> JsString.strip fwd (w +:+ s) = JsString.strip fwd s.
Proof.
  induction w as [|c w IH]; [done|].
  cbn [all_ws1]. intros [Hc Hw]%andb_true_iff.
  change (String c w +:+ s) with (String c (w +:+ s)).
  cbn [JsString.strip]. rewrite Hc. by apply IH.
Qed.

Lemma rev_app_app_r (a b c : string) :
  String.rev_app a (b +:+ c) = String.rev_app a b +:+ c.
Proof.
  revert b. induction a as [|x a IH]; intros b; [done|].
  cbn [String.rev_app]. by rewrite <- IH.
Qed.

Lemma rev_app_app_l (a b c : string) :
  String.rev_app (a +:+ b) c = String.rev_app b (String.rev_app a c).
Proof.
  revert c. induction a as [|x a IH]; intros c; [done|].
  change (String x a +:+ b) with (String x (a +:+ b)).
  cbn [String.rev_app]. by rewrite IH.
Qed.

Lemma string_rev_app (a b : string) :
  String.rev (a +:+ b) = String.rev b +:+ String.rev a.
Proof.
  unfold String.rev. rewrite rev_app_app_l.
  by rewrite <- (rev_app_app_r b EmptyString (String.rev_app a EmptyString)).
Qed.

Lemma toLowerCase_app (a b : string) :
  JsString.toLowerCase (a +:+ b) = JsString.toLowerCase a +:+ JsString.toLowerCase b.
Proof.
  induction a as [|x a IH]; [done|].
  change (String x a +:+ b) with (String x (a +:+ b)).
  cbn [JsString.toLowerCase]. by rewrite IH.
Qed.

Lemma prefix_app (a w : string) : String.prefix a (a +:+ w) = true.
Proof.
  induction a as [|x a IH]; [by destruct w|].
  change (String x a +:+ w) with (String x (a +:+ w)).
  cbn [String.prefix]. destruct (ascii_dec x x); [done|congruence].
Qed.

(** The check looks at nothing but the first word: one-byte white space
    in front, the letters of select in either case, then any text. *)
Lemma is_select_prefix (w head rest : string) :
  all_ws1 w = true ->
  JsString.toLowerCase head = "select" ->
  is_select (w +:+ head +:+ rest) = true.
Proof.
  intros Hw Hlow.
  unfold is_select, JsString.trim, JsString.trimStart, JsString.trimEnd,
    JsString.startsWith.
  rewrite (strip_ws1_prefix true w _ Hw).
  assert (exists c1 c2 c3 c4 c5 c6,
            head = String c1 (String c2 (String c3 (String c4 (String c5 (String c6 EmptyString)))))
            /\ plain c1 = true /\ plain c6 = true) as (c1 & c2 & c3 & c4 & c5 & c6 & Hhead & H1 & H6).
  { destruct head as [|c1 [|c2 [|c3 [|c4 [|c5 [|c6 [|c7 head]]]]]]]; try discriminate Hlow.
    injection Hlow as Hl1 _ _ _ _ Hl6.
    exists c1, c2, c3, c4, c5, c6. split; [done|].
    split; apply lower_ascii_plain; [by rewrite Hl1 | by rewrite Hl6]. }
  assert (JsString.strip true (head +:+ rest) = head +:+ rest) as ->.
  { rewrite Hhead.
    change (String c1 ?s +:+ rest) with (String c1 (s +:+ rest)).
    by apply strip_plain_head. }
  rewrite string_rev_app.
  assert (String.rev head
          = String c6 (String c5 (String c4 (String c3 (String c2 (String c1 EmptyString))))))
    as Hrev by (by rewrite Hhead).
  rewrite Hrev.
  destruct (strip_plain_barrier false c6
              (String c5 (String c4 (String c3 (String c2 (String c1 EmptyString)))))
              H6 (String.length (String.rev rest)) (String.rev rest) (le_n _))
    as [x' ->].
  rewrite string_rev_app, <- Hrev, string_rev_involutive.
  rewrite toLowerCase_app, Hlow.
  apply prefix_app.
Qed.

(** X6.  The gate of the tool handler is a check of the first word and
    nothing more: an [sql] text that starts, after any one-byte white
    space, with select in any mix of upper and lower case is let through
    whatever follows, and the handler hands the text as it is to the
    read-only path. *)
Theorem callTool_gate_first_word (drv : Driver) (args : gmap string JsValue)
    (w head rest : string) (tr : Trace) :
  all_ws1 w = true ->
  JsString.toLowerCase head = "select" ->
  args !! "sql" = Some (VString (w +:+ head +:+ rest)) ->
  JsString.startsWith (JsString.toLowerCase (JsString.trim (w +:+ head +:+ rest))) "select"
  = true
  /\ snd (callTool drv {| ct_name := "mysql_query"; ct_arguments := Some args |} tr)
     = snd (executeReadOnlyQuery drv (w +:+ head +:+ rest) tr)
  /\ exists res,
       fst (callTool drv {| ct_name := "mysql_query"; ct_arguments := Some args |} tr)
       = Return res.
Proof.
  intros Hw Hlow Hsql.
  pose proof (is_select_prefix w head rest Hw Hlow) as Hgate.
  split; [exact Hgate|].
  rewrite (callTool_past_gates drv args _ tr Hsql Hgate).
  destruct (executeReadOnlyQuery drv _ tr) as [[rows|e] tr']; eauto.
Qed.

Lemma callTool_gate_first_word_witness :
  JsString.startsWith
    (JsString.toLowerCase
       (JsString.trim (String "010" "  " +:+ "SeLeCt" +:+ " 1; DROP TABLE orders")))
    "select" = true
  /\ snd (callTool healthy
            {| ct_name := "mysql_query";
               ct_arguments :=
                 Some (sql_args (String "010" "  " +:+ "SeLeCt" +:+ " 1; DROP TABLE orders")) |}
            [])
     = snd (executeReadOnlyQuery healthy
              (String "010" "  " +:+ "SeLeCt" +:+ " 1; DROP TABLE orders") [])
  /\ exists res,
       fst (callTool healthy
              {| ct_name := "mysql_query";
                 ct_arguments :=
                   Some (sql_args (String "010" "  " +:+ "SeLeCt" +:+ " 1; DROP TABLE orders")) |}
              [])
       = Return res.
Proof.
  apply (callTool_gate_first_word healthy
           (sql_args (String "010" "  " +:+ "SeLeCt" +:+ " 1; DROP TABLE orders"))
           (String "010" "  ") "SeLeCt" " 1; DROP TABLE orders" []);
    vm_compute; reflexivity.
Defined.

(* ===================================================================== *)
(** ** What no handler does *)
(* ===================================================================== *)

Ltac count_events :=
  unfold balanced, acquired_calls, release_calls, rollback_calls;
  unfold throw, console, emit, mbind, M_bind, mret, M_ret;
  cbn [fst snd]; rewrite ?count_app; cbn [count is_acquired is_release is_rollback];
  lia.

Section NoLeak.

Variable env : gmap string string.
Variable drv : Driver.
Variable URL_parse : string -> Outcome URL.

(** X16.  No handler keeps a connection: whatever the request and however
    the database answers, the three handlers that use the pool release
    exactly the connections they acquired.  The two catalog handlers
    never roll back. *)
Theorem handlers_release_connections (tr : Trace) :
  (forall request, balanced tr (snd (callTool drv request tr)))
  /\ (forall request,
        balanced tr (snd (readResource env drv URL_parse request tr))
        /\ rollback_calls (snd (readResource env drv URL_parse request tr))
           = rollback_calls tr)
  /\ balanced tr (snd (listResources env drv tr))
  /\ rollback_calls (snd (listResources env drv tr)) = rollback_calls tr.
Proof.
  split; [|split; [|split]].
  - intros [name args]. unfold callTool. cbn [ct_name ct_arguments].
    unfold mbind at 1. unfold M_bind at 1.
    case_bool_decide; cbn [negb throw]; [|count_events].
    unfold mret at 1. unfold M_ret at 1.
    destruct args as [a|]; [|count_events].
    unfold mbind at 1. unfold M_bind at 1.
    case_bool_decide; cbn [negb throw]; [|count_events].
    unfold mret at 1. unfold M_ret at 1. cbv zeta.
    unfold mbind at 1. unfold M_bind at 1.
    destruct (JsString.startsWith _ _); cbn [negb throw]; [|count_events].
    unfold mret at 1. unfold M_ret at 1.
    generalize (string_of (get_prop a "sql")). intros sql.
    unfold_calls. repeat answer; count_events.
  - intros request.
    unfold readResource, new_URL, try_catch, throw, console, emit, mbind, M_bind,
      mret, M_ret.
    destruct (URL_parse (rr_uri request)) as [u|e]; [|split; count_events].
    destruct (pop (JsString.split (url_pathname u) "/")) as [schema pathComponents].
    destruct (pop pathComponents) as [tableName rest].
    destruct (negb (bool_decide (schema = Some "schema"))); [split; count_events|].
    unfold_calls. split; repeat answer; count_events.
  - unfold listResources. unfold_calls. repeat answer; count_events.
  - unfold listResources. unfold_calls. repeat answer; count_events.
Qed.

(** X17.  The tool handler throws only before it touches anything: what it
    throws is one of its three protocol faults, and the trace is then
    unchanged.  Once a connection has been asked for, the handler
    returns. *)
Theorem callTool_throws_only_at_the_gates (request : CallToolRequest) (tr tr' : Trace)
    (e : JsError) :
  callTool drv request tr = (Throw e, tr') ->
  tr' = tr
  /\ (e = McpError MethodNotFound ("Unknown tool: " +:+ ct_name request)
      \/ e = McpError InvalidParams "Invalid SQL query"
      \/ e = McpError InvalidRequest "Only SELECT queries are allowed").
Proof.
  destruct request as [name args]. unfold callTool. cbn [ct_name ct_arguments].
  unfold try_catch, throw, mbind, M_bind, mret, M_ret.
  case_bool_decide; cbn [negb]; [|intros [= <- <-]; auto].
  destruct args as [a|]; [|intros [= <- <-]; auto].
  case_bool_decide; cbn [negb]; [|intros [= <- <-]; auto].
  destruct (JsString.startsWith _ _); cbn [negb]; [|intros [= <- <-]; auto].
  by destruct (executeReadOnlyQuery _ _ _) as [[rows|e'] tr1].
Qed.

End NoLeak.

Lemma callTool_throws_only_at_the_gates_witness :
  [] = @nil Event
  /\ (McpError InvalidRequest "Only SELECT queries are allowed"
      = McpError MethodNotFound ("Unknown tool: " +:+ "mysql_query")
      \/ McpError InvalidRequest "Only SELECT queries are allowed"
         = McpError InvalidParams "Invalid SQL query"
      \/ McpError InvalidRequest "Only SELECT queries are allowed"
         = McpError InvalidRequest "Only SELECT queries are allowed").
Proof.
  apply (callTool_throws_only_at_the_gates healthy
           {| ct_name := "mysql_query";
              ct_arguments := Some (sql_args "DELETE FROM orders") |} [] []
           (McpError InvalidRequest "Only SELECT queries are allowed")).
  vm_compute. reflexivity.
Defined.
